(** * Source Builder: date normalisation, module store and the two renderers

    A shallow embedding of the Source Builder single-page application
    (the "repeatable modules" variant, with the date validator of the
    "custom visit" variant next to it) and the properties its
    specification states about it.

    Conventions of the embedding.
    - JavaScript strings are [string]s holding the UTF-8 bytes of the text.
      Every pattern the code matches is made of ASCII characters only, so a
      text matches here exactly when its UTF-16 form matches in the browser.
    - JavaScript numbers that the code only ever uses as integers (days,
      years, repeat counts, time values in milliseconds) are [Z].
    - [undefined] and [null] are [None].
    - The browser's [Date] is the one part of the program that is not in the
      repository.  Its arithmetic is written out after ECMA-262 (Day,
      YearFromTime, MonthFromTime, DateFromTime, MakeDay, TimeClip); what the
      standard leaves to the implementation (the local time zone, and the
      reading of every text that is not a legal date-only ISO form) is a
      [Host] record that the functions take as an argument. *)

From Stdlib Require Import ZArith Lia List Bool Ascii String DecimalString.
Import ListNotations.

Local Open Scope string_scope.
Local Open Scope Z_scope.

(* ------------------------------------------------------------------------ *)
(** ** JavaScript string and number primitives used by the code *)

Module JS.

Definition code (c : ascii) : Z := Z.of_N (N_of_ascii c).

(** [\d] *)
Definition isDigit (c : ascii) : bool := (48 <=? code c) && (code c <=? 57).

(** [[A-Z]] and [[a-z]] *)
Definition isUpperAZ (c : ascii) : bool := (65 <=? code c) && (code c <=? 90).
Definition isLowerAZ (c : ascii) : bool := (97 <=? code c) && (code c <=? 122).

(** [[A-Za-z]] *)
Definition isAlpha (c : ascii) : bool := isUpperAZ c || isLowerAZ c.

Definition upperChar (c : ascii) : ascii :=
  if isLowerAZ c then ascii_of_N (Z.to_N (code c - 32)) else c.

(** [s.toUpperCase()] on the ASCII letters; other bytes are kept.  The code
    of the first variant only applies it to text already matched by
    [[A-Za-z]{3}], where this is the whole of its behaviour. *)
Fixpoint toUpperCase (s : string) : string :=
  match s with
  | EmptyString => EmptyString
  | String c r => String (upperChar c) (toUpperCase r)
  end.

Definition digitVal (c : ascii) : Z := code c - 48.

Fixpoint NumberFrom (acc : Z) (s : string) : Z :=
  match s with
  | EmptyString => acc
  | String c r => NumberFrom (10 * acc + digitVal c) r
  end.

(** [Number(s)] for a text made of decimal digits (the only texts the code
    converts: the groups matched by [\d{2}] and [\d{4}]). *)
Definition Number (s : string) : Z := NumberFrom 0 s.

(** [String(n)] and template interpolation of an integer. *)
Definition numToString (n : Z) : string := NilZero.string_of_int (Z.to_int n).

Fixpoint fillCycle (fill rest : string) (n : nat) : string :=
  match n with
  | O => EmptyString
  | S k =>
      match rest with
      | String c r => String c (fillCycle fill r k)
      | EmptyString =>
          match fill with
          | String c r => String c (fillCycle fill r k)
          | EmptyString => EmptyString
          end
      end
  end.

(** [s.padStart(target, fill)] *)
Definition padStart (target : nat) (fill s : string) : string :=
  if (target <=? String.length s)%nat then s
  else match fill with
       | EmptyString => s
       | _ => fillCycle fill fill (target - String.length s) ++ s
       end.

Fixpoint indexOfFrom (i : Z) (l : list string) (x : string) : Z :=
  match l with
  | [] => -1
  | y :: r => if String.eqb y x then i else indexOfFrom (i + 1) r x
  end.

(** [arr.indexOf(x)]: the first index holding [x], or [-1]. *)
Definition indexOf (l : list string) (x : string) : Z := indexOfFrom 0 l x.

(** [arr.includes(x)] *)
Definition includes (l : list string) (x : string) : bool :=
  existsb (String.eqb x) l.

(** [arr[i]]; out of range is [undefined]. *)
Definition at_ (l : list string) (i : Z) : option string :=
  if i <? 0 then None else nth_error l (Z.to_nat i).

(** A string-or-undefined inside a template literal. *)
Definition interp (o : option string) : string :=
  match o with
  | Some s => s
  | None => "undefined"
  end.

(** Truthiness of a string: every string but the empty one. *)
Definition truthy (s : string) : bool :=
  match s with
  | EmptyString => false
  | _ => true
  end.

(** [x || d] for a string-or-undefined [x]. *)
Definition orElse (x : option string) (d : string) : string :=
  match x with
  | Some s => if truthy s then s else d
  | None => d
  end.

(** White space of the ASCII range (TAB, LF, VT, FF, CR, SP). *)
Definition isSpace (c : ascii) : bool :=
  ((9 <=? code c) && (code c <=? 13)) || (code c =? 32).

Fixpoint dropSpaces (s : string) : string :=
  match s with
  | EmptyString => EmptyString
  | String c r => if isSpace c then dropSpaces r else s
  end.

Fixpoint revString (acc s : string) : string :=
  match s with
  | EmptyString => acc
  | String c r => revString (String c acc) r
  end.

(** [s.trim()] for ASCII white space. *)
Definition trim (s : string) : string :=
  revString "" (dropSpaces (revString "" (dropSpaces s))).

(** [s.replace(/\s+/g, "")] for ASCII white space. *)
Fixpoint removeSpaces (s : string) : string :=
  match s with
  | EmptyString => EmptyString
  | String c r => if isSpace c then removeSpaces r else String c (removeSpaces r)
  end.

(** [s.replace(/[\/.]/g, "-")] *)
Fixpoint slashDotToHyphen (s : string) : string :=
  match s with
  | EmptyString => EmptyString
  | String c r =>
      String (if (code c =? 47) || (code c =? 46) then "-"%char else c)
             (slashDotToHyphen r)
  end.

End JS.

(* ------------------------------------------------------------------------ *)
(** ** The calendar arithmetic of ECMA-262 (section "Date Objects") *)

Module Calendar.

Definition msPerDay : Z := 86400000.

Definition Day (t : Z) : Z := t / msPerDay.

Definition DaysInYear (y : Z) : Z :=
  if negb (y mod 4 =? 0) then 365
  else if negb (y mod 100 =? 0) then 366
  else if negb (y mod 400 =? 0) then 365
  else 366.

Definition DayFromYear (y : Z) : Z :=
  365 * (y - 1970) + (y - 1969) / 4 - (y - 1901) / 100 + (y - 1601) / 400.

Definition TimeFromYear (y : Z) : Z := msPerDay * DayFromYear y.

(** The standard defines YearFromTime(t) as the largest [y] with
    [TimeFromYear y <= t].  It is computed here from the mean year length
    (146097 days in 400 years), which is off by at most one; lemma
    [YearFromTime_spec] shows that the result is the year of the standard. *)
Definition YearFromTime (t : Z) : Z :=
  let d := Day t in
  let c := 1970 + (d * 400) / 146097 in
  if DayFromYear (c + 1) <=? d then c + 1
  else if DayFromYear c <=? d then c
  else c - 1.

Definition InLeapYear (t : Z) : Z :=
  if DaysInYear (YearFromTime t) =? 366 then 1 else 0.

Definition DayWithinYear (t : Z) : Z := Day t - DayFromYear (YearFromTime t).

Definition MonthFromTime (t : Z) : Z :=
  let d := DayWithinYear t in
  let l := InLeapYear t in
  if d <? 31 then 0
  else if d <? 59 + l then 1
  else if d <? 90 + l then 2
  else if d <? 120 + l then 3
  else if d <? 151 + l then 4
  else if d <? 181 + l then 5
  else if d <? 212 + l then 6
  else if d <? 243 + l then 7
  else if d <? 273 + l then 8
  else if d <? 304 + l then 9
  else if d <? 334 + l then 10
  else 11.

Definition DateFromTime (t : Z) : Z :=
  let d := DayWithinYear t in
  let l := InLeapYear t in
  match MonthFromTime t with
  | 0 => d + 1
  | 1 => d - 30
  | 2 => d - 58 - l
  | 3 => d - 89 - l
  | 4 => d - 119 - l
  | 5 => d - 150 - l
  | 6 => d - 180 - l
  | 7 => d - 211 - l
  | 8 => d - 242 - l
  | 9 => d - 272 - l
  | 10 => d - 303 - l
  | _ => d - 333 - l
  end.

(** Day of the year on which month [m] (0..11) starts. *)
Definition monthStart (m leap : Z) : Z :=
  match m with
  | 0 => 0
  | 1 => 31
  | 2 => 59 + leap
  | 3 => 90 + leap
  | 4 => 120 + leap
  | 5 => 151 + leap
  | 6 => 181 + leap
  | 7 => 212 + leap
  | 8 => 243 + leap
  | 9 => 273 + leap
  | 10 => 304 + leap
  | _ => 334 + leap
  end.

(** MakeDay(year, month, date): the day number of the first of the month,
    plus [date - 1].  A date past the end of the month runs on into the
    next one. *)
Definition MakeDay (year month date : Z) : Z :=
  let ym := year + month / 12 in
  let mn := month mod 12 in
  let leap := if DaysInYear ym =? 366 then 1 else 0 in
  DayFromYear ym + monthStart mn leap + date - 1.

Definition MakeDate (day time : Z) : Z := day * msPerDay + time.

(** TimeClip: a time value further than 8.64e15 ms from the epoch is NaN. *)
Definition TimeClip (t : Z) : option Z :=
  if Z.abs t <=? 8640000000000000 then Some t else None.

Definition DaysInMonth (y m : Z) : Z :=
  match m with
  | 1 => if DaysInYear y =? 366 then 29 else 28
  | 3 | 5 | 8 | 10 => 30
  | _ => 31
  end.

End Calendar.

(* ------------------------------------------------------------------------ *)
(** ** The host's [Date] *)

(** What ECMA-262 leaves to the implementation.
    - [LocalTZA t]: the offset of local time from UTC, in ms, at time [t].
    - [parseOther s]: the time value ([None] for NaN) that [Date.parse]
      gives a text that is not a legal [YYYY-MM-DD]. *)
Record Host : Type := mkHost {
  LocalTZA : Z -> Z;
  parseOther : string -> option Z
}.

Module JSDate.

Import JS Calendar.

(** The date-only form [YYYY-MM-DD] of the Date Time String Format with
    legal element values: midnight UTC of that day. *)
Definition parseIsoDateOnly (s : string) : option Z :=
  match list_ascii_of_string s with
  | [y1; y2; y3; y4; h1; m1; m2; h2; d1; d2] =>
      if forallb isDigit [y1; y2; y3; y4; m1; m2; d1; d2]
         && (code h1 =? 45) && (code h2 =? 45)
      then
        let y := Number (string_of_list_ascii [y1; y2; y3; y4]) in
        let m := Number (string_of_list_ascii [m1; m2]) in
        let d := Number (string_of_list_ascii [d1; d2]) in
        if (1 <=? m) && (m <=? 12) && (1 <=? d) && (d <=? DaysInMonth y (m - 1))
        then Some (MakeDate (MakeDay y (m - 1) d) 0)
        else None
      else None
  | _ => None
  end.

(** [Date.parse(s)] *)
Definition parse (h : Host) (s : string) : option Z :=
  match parseIsoDateOnly s with
  | Some t => Some t
  | None => parseOther h s
  end.

(** [new Date(s).getTime()]; [None] is NaN, the Invalid Date. *)
Definition newDate (h : Host) (s : string) : option Z :=
  match parse h s with
  | Some t => TimeClip t
  | None => None
  end.

Definition LocalTime (h : Host) (t : Z) : Z := t + LocalTZA h t.

Definition getDate (h : Host) (t : Z) : Z := DateFromTime (LocalTime h t).
Definition getMonth (h : Host) (t : Z) : Z := MonthFromTime (LocalTime h t).
Definition getFullYear (h : Host) (t : Z) : Z := YearFromTime (LocalTime h t).

End JSDate.

(* ------------------------------------------------------------------------ *)
(** ** Date normaliser of the repeatable-modules variant *)

Definition MONTHS : list string :=
  ["JAN"; "FEB"; "MAR"; "APR"; "MAY"; "JUN";
   "JUL"; "AUG"; "SEP"; "OCT"; "NOV"; "DEC"].

(** [input.match(/^(\d{2})-([A-Za-z]{3})-(\d{4})$/)]: the three groups. *)
Definition matchDmmmyyyy (input : string) : option (string * string * string) :=
  match list_ascii_of_string input with
  | [d1; d2; h1; a1; a2; a3; h2; y1; y2; y3; y4] =>
      if forallb JS.isDigit [d1; d2; y1; y2; y3; y4]
         && forallb JS.isAlpha [a1; a2; a3]
         && (JS.code h1 =? 45) && (JS.code h2 =? 45)
      then Some (string_of_list_ascii [d1; d2],
                 string_of_list_ascii [a1; a2; a3],
                 string_of_list_ascii [y1; y2; y3; y4])
      else None
  | _ => None
  end.

Definition toDmmmyyyy (h : Host) (input : string) : string :=
  match JSDate.newDate h input with
  | Some iso =>
      let dd := JS.padStart 2 "0" (JS.numToString (JSDate.getDate h iso)) in
      let m := JS.at_ MONTHS (JSDate.getMonth h iso) in
      let yyyy := JSDate.getFullYear h iso in
      dd ++ "-" ++ JS.interp m ++ "-" ++ JS.numToString yyyy
  | None =>
      match matchDmmmyyyy input with
      | Some (dd, mon, yyyy) =>
          let idx := JS.indexOf MONTHS (JS.toUpperCase mon) in
          let ndd := JS.Number dd in
          let ny := JS.Number yyyy in
          if (idx >=? 0) && (ndd >=? 1) && (ndd <=? 31)
             && (ny >=? 1900) && (ny <=? 2100)
          then dd ++ "-" ++ JS.toUpperCase mon ++ "-" ++ yyyy
          else ""
      | None => ""
      end
  end.

(** The result type [true | string] of the validator. *)
Inductive Validation : Type :=
| VTrue
| VMessage (msg : string).

Definition dateMessage : string := "Use DD-MMM-YYYY (e.g., 28-AUG-2025)".

Definition validateDmmmyyyy (h : Host) (input : string) : Validation :=
  let out := toDmmmyyyy h input in
  if JS.truthy out then VTrue else VMessage dateMessage.

(* ------------------------------------------------------------------------ *)
(** ** Date validator of the custom-visit variant *)

Module CustomVisit.

(** [s.match(/^(\d{2})-([A-Z]{3})-(\d{4})$/)] *)
Definition matchDD_MMM_YYYY (s : string) : option (string * string * string) :=
  match list_ascii_of_string s with
  | [d1; d2; h1; a1; a2; a3; h2; y1; y2; y3; y4] =>
      if forallb JS.isDigit [d1; d2; y1; y2; y3; y4]
         && forallb JS.isUpperAZ [a1; a2; a3]
         && (JS.code h1 =? 45) && (JS.code h2 =? 45)
      then Some (string_of_list_ascii [d1; d2],
                 string_of_list_ascii [a1; a2; a3],
                 string_of_list_ascii [y1; y2; y3; y4])
      else None
  | _ => None
  end.

(** [isValidDDMMMYYYY].  [trim] and [toUpperCase] are the ASCII ones of
    [JS]: the function is the source's on every text made of ASCII
    characters, which is the text the results below are about.  Text with
    other characters is outside this model (white space beyond ASCII around
    a date, or a letter such as the long s, whose upper case is an ASCII
    letter). *)
Definition isValidDDMMMYYYY (s : string) : bool :=
  match matchDD_MMM_YYYY (JS.toUpperCase (JS.trim s)) with
  | None => false
  | Some (m1, mon, m3) =>
      let dd := JS.Number m1 in
      let yyyy := JS.Number m3 in
      if (yyyy <? 1900) || (yyyy >? 2100) then false
      else if negb (JS.includes MONTHS mon) then false
      else if (dd <? 1) || (dd >? 31) then false
      else
        let short := ["APR"; "JUN"; "SEP"; "NOV"] in
        if JS.includes short mon && (dd >? 30) then false
        else if String.eqb mon "FEB" && (dd >? 29) then false
        else true
  end.

(** [normalizeDDMMMYYYY]: upper case, white space removed, slashes and dots
    turned into hyphens; as [isValidDDMMMYYYY], the source's function on
    ASCII text. *)
Definition normalizeDDMMMYYYY (input : string) : string :=
  let up := JS.removeSpaces (JS.toUpperCase input) in
  let withHyphens := JS.slashDotToHyphen up in
  withHyphens.

End CustomVisit.

(* ------------------------------------------------------------------------ *)
(** ** Header fields, catalog and module instances *)

Record Brand : Type := mkBrand {
  name : string;
  disclaimer : string
}.

Definition BRAND : Brand :=
  {| name := "Research Source Consulting";
     disclaimer := "Complete in real time. Correct with single line, date/initial. Use 24-hr time. Do not record PHI beyond protocol requirements." |}.

(** [Record<string, string>]: the most recent binding of a key comes first. *)
Definition Fields : Type := list (string * string).

Fixpoint getField (fields : Fields) (key : string) : option string :=
  match fields with
  | [] => None
  | (k, v) :: r => if String.eqb k key then Some v else getField r key
  end.

(** [{ ...s, [key]: value }] *)
Definition setField (fields : Fields) (key value : string) : Fields :=
  (key, value) :: fields.

(** The ten tags of the union type [ModuleType]. *)
Definition ModuleTypes : list string :=
  ["consent"; "eligibility"; "screening"; "baseline"; "vitals";
   "ecg"; "labs"; "pk"; "physicalExam"; "neuroExam"].

Definition isModuleType (t : string) : bool := JS.includes ModuleTypes t.

Record ModuleInstance : Type := mkInstance {
  id : string;
  type : string;
  title : string;
  repeatCount : option Z;
  data : option Fields
}.

Record CatalogEntry : Type := mkEntry {
  value : string;
  label : string;
  repeatable : option bool
}.

Definition LIBRARY : list CatalogEntry :=
  [ {| value := "vitals"; label := "Vitals (°C/°F, HR, BP, etc.)"; repeatable := Some true |};
    {| value := "ecg"; label := "ECG (with Repeat / N/A option)"; repeatable := Some true |};
    {| value := "labs"; label := "Labs & Specimen Collection"; repeatable := None |};
    {| value := "pk"; label := "PK Collection (optional per protocol)"; repeatable := None |};
    {| value := "physicalExam"; label := "Physical Exam (Investigator)"; repeatable := None |};
    {| value := "neuroExam"; label := "Neurological Exam (Investigator)"; repeatable := None |};
    {| value := "consent"; label := "Informed Consent Checklist"; repeatable := None |};
    {| value := "eligibility"; label := "Eligibility Checklist"; repeatable := None |};
    {| value := "screening"; label := "Screening Visit"; repeatable := None |};
    {| value := "baseline"; label := "Baseline / Visit 1"; repeatable := None |} ].

(** [LIBRARY.find((l) => l.value === tag)] *)
Definition findEntry (tag : string) : option CatalogEntry :=
  find (fun l => String.eqb (value l) tag) LIBRARY.

(** [inst.repeatCount ?? 1] *)
Definition repeatOr1 (inst : ModuleInstance) : Z :=
  match repeatCount inst with
  | Some n => n
  | None => 1
  end.

(** [x.type === "vitals" || x.type === "ecg"] *)
Definition isRepeatType (t : string) : bool :=
  String.eqb t "vitals" || String.eqb t "ecg".

(** The values [i = 1; i <= n; i++] runs through. *)
Definition fromOneTo (n : Z) : list Z := map Z.of_nat (seq 1 (Z.to_nat n)).

(** The indices of [Array.from({ length: n })]. *)
Definition indices (n : Z) : list Z := map Z.of_nat (seq 0 (Z.to_nat n)).

(* ------------------------------------------------------------------------ *)
(** ** Export renderer *)

Inductive Run : Type :=
| L (text : string)
| TextRun (text : string).

Inductive Paragraph : Type :=
| Heading1 (text : string)
| SectionHeading (text : string)
| Para (text : string)
| Bullet (text : string)
| Runs (children : list Run).

Definition investigatorLine : string :=
  "Investigator (print/sign/date): ________________________________".

Definition buildModuleDocx (inst : ModuleInstance) : list Paragraph :=
  let out := [SectionHeading (title inst)] in
  let t := type inst in
  if String.eqb t "vitals" then
    let n := repeatOr1 inst in
    out ++ [Para "Position: Sitting ☐  Supine ☐  Standing ☐   Device: ______"]
        ++ flat_map (fun i =>
             [Para ("Reading " ++ JS.numToString i);
              Bullet "Time ____:____  HR ___  BP ___/___  RR ___  Temp ___°C (___°F)  SpO2 ___%";
              Bullet "Weight ___ kg  Height ___ cm  BMI ___ kg/m²  (omit if remote)"])
             (fromOneTo n)
        ++ [Para investigatorLine]
  else if String.eqb t "ecg" then
    let n := repeatOr1 inst in
    out ++ [Para "12-lead ECG per protocol. Record times & any repeats."]
        ++ map (fun i =>
             Para ("ECG " ++ JS.numToString i ++ ":  Date " ++ "____-___-____"
                   ++ "  Time ____:____  QTc ___ ms  Rhythm ____.  Repeat? Yes ☐  No ☐  N/A ☐"))
             (fromOneTo n)
        ++ [Para investigatorLine]
  else if String.eqb t "labs" then
    out ++ [Bullet "Specimen | Date | Time | Fasting? | Volume | Tube | Collected By | Processed? | Centrifuge | Frozen Temp | Shipped? | Courier | Notes"]
  else if String.eqb t "pk" then
    out ++ [Para "PK per protocol (only if required).";
            Bullet "Timepoint | Actual Time | Volume | Tube/Label | Handling | Notes"]
  else if String.eqb t "physicalExam" then
    out ++ [Para "Focused/Full Physical Exam (check systems, document abnormals):";
            Bullet "General | HEENT | Cardiac | Respiratory | Abdomen | Musculoskeletal | Skin";
            Para "Findings / Notes: _______________________________________________________________";
            Para investigatorLine]
  else if String.eqb t "neuroExam" then
    out ++ [Para "Neurological Exam (document abnormals/changes):";
            Bullet "Mental status | Cranial nerves | Motor | Sensory | Reflexes | Coordination | Gait";
            Para "Findings / Notes: _______________________________________________________________";
            Para investigatorLine]
  else if String.eqb t "consent" then
    out ++ [Para "ICF Version/Date: __________    IRB: __________";
            Bullet "Private area used; identity verified";
            Bullet "Provided IRB-approved ICF and time to review";
            Bullet "Discussed purpose, procedures, risks/benefits, alternatives";
            Bullet "Questions answered; no coercion/undue influence";
            Bullet "Assessed comprehension (teach-back)";
            Bullet "Signatures obtained before any procedures";
            Para "Signature Times (24-hr): Participant ____:____  LAR ____:____  Person Obtaining Consent ____:____"]
  else if String.eqb t "eligibility" then
    out ++ [Para "INCLUSION CRITERIA:";
            Bullet "1) ______________________    Met ☐    Not Met ☐    Evidence: __________";
            Bullet "2) ______________________    Met ☐    Not Met ☐    Evidence: __________";
            Bullet "3) ______________________    Met ☐    Not Met ☐    Evidence: __________";
            Para "EXCLUSION CRITERIA:";
            Bullet "1) ______________________    Absent ☐    Present (exclusion) ☐    Evidence: __________";
            Bullet "2) ______________________    Absent ☐    Present (exclusion) ☐    Evidence: __________";
            Bullet "3) ______________________    Absent ☐    Present (exclusion) ☐    Evidence: __________"]
  else if String.eqb t "screening" then
    out ++ [Bullet "Pre-consent procedures performed: None ☐  (If any) __________";
            Bullet "Medical history obtained; updates documented";
            Bullet "Physical exam performed; abnormal findings documented";
            Bullet "Vitals (HR/BP/RR/Temp/SpO2/Wt/Ht)";
            Bullet "Con meds reviewed; changes recorded";
            Bullet "Labs/ECG per protocol; collection times recorded"]
  else if String.eqb t "baseline" then
    out ++ [Bullet "Randomization performed?  Yes ☐  No ☐    Code: ______";
            Bullet "Visit procedures completed per protocol";
            Bullet "Study drug/device dispensed; lot/kit/qty/exp recorded";
            Bullet "Instructions provided (dose, storage, diary)"]
  else out.

(** The header table: one row of two cells, each a list of paragraphs. *)
Definition HeaderTable (h : Host) (fields : Fields) : list (list Paragraph) :=
  let f := getField fields in
  [ [ Runs [L "Protocol No: "; TextRun (JS.orElse (f "protocol") " ")];
      Runs [L "Protocol Title: "; TextRun (JS.orElse (f "title") " ")];
      Runs [L "Site No: "; TextRun (JS.orElse (f "site") " "); TextRun "    ";
            L "PI: "; TextRun (JS.orElse (f "pi") " ")] ];
    [ Runs [L "Subject ID: "; TextRun (JS.orElse (f "subjectId") " "); TextRun "    ";
            L "Initials: "; TextRun (JS.orElse (f "initials") " ")];
      Runs [L "Visit: "; TextRun (JS.orElse (f "visit") " ")];
      Runs [L "Visit Date: ";
            TextRun (JS.orElse (Some (toDmmmyyyy h (JS.orElse (f "visitDate") ""))) " ")] ] ].

Inductive Child : Type :=
| Par (p : Paragraph)
| Table (row : list (list Paragraph)).

Record Document : Type := mkDocument {
  children : list Child
}.

Definition buildDoc (h : Host) (mods : list ModuleInstance) (fields : Fields) : Document :=
  {| children :=
       [ Par (Heading1 (name BRAND));
         Par (Para "Source Version: v1.1");
         Table (HeaderTable h fields);
         Par (Para (disclaimer BRAND)) ]
       ++ map Par (flat_map buildModuleDocx mods) |}.

(* ------------------------------------------------------------------------ *)
(** ** Preview renderer *)

(** The no-break space that [&nbsp;] stands for (U+00A0, two bytes). *)
Definition nbsp : string :=
  String (ascii_of_nat 194) (String (ascii_of_nat 160) EmptyString).

(** What [ModuleCard] shows for an instance: the title, the repeat read-out
    (only for the two repeatable types) and the lines of the body.  A line is
    the text of one element of the body that holds text directly ([div] or
    [li]), with the text of its inline children joined in, in document
    order. *)
Record Card : Type := mkCard {
  cardTitle : string;
  cardRepeat : option string;
  cardBody : list string
}.

Definition ModuleCard (inst : ModuleInstance) : Card :=
  let t := type inst in
  {| cardTitle := title inst;
     cardRepeat :=
       if isRepeatType t then Some (JS.numToString (repeatOr1 inst) ++ "×") else None;
     cardBody :=
       (if String.eqb t "vitals" then
          ["Position: " ++ "Sitting ☐  Supine ☐  Standing ☐" ++ " Device: ______"]
          ++ flat_map (fun i =>
               ["Reading " ++ JS.numToString (i + 1);
                "Time ____:____  HR ___  BP ___/___  RR ___  Temp ___°C (___°F)  SpO2 ___%";
                "Weight ___ kg  Height ___ cm  BMI ___ kg/m²  (omit if remote)"])
               (indices (repeatOr1 inst))
          ++ [investigatorLine]
        else [])
       ++
       (if String.eqb t "ecg" then
          ["12-lead ECG per protocol. Record times & any repeats."]
          ++ flat_map (fun i =>
               ["ECG " ++ JS.numToString (i + 1);
                "Date ____-___-____  Time ____:____  QTc ___ ms  Rhythm ____.  Repeat? Yes ☐  No ☐  N/A ☐"])
               (indices (repeatOr1 inst))
          ++ [investigatorLine]
        else [])
       ++
       (if String.eqb t "labs" then
          ["Specimen | Date | Time | Fasting? | Volume | Tube | Collected By | Processed? | Centrifuge | Frozen Temp | Shipped? | Courier | Notes"]
        else [])
       ++
       (if String.eqb t "pk" then
          ["PK per protocol (only if required). Timepoint | Actual Time | Volume | Tube/Label | Handling | Notes"]
        else [])
       ++
       (if String.eqb t "physicalExam" then
          ["Focused/Full Physical Exam (document abnormals):";
           "General · HEENT · Cardiac · Respiratory · Abdomen · Musculoskeletal · Skin";
           "Findings / Notes: _____________________________________________";
           investigatorLine]
        else [])
       ++
       (if String.eqb t "neuroExam" then
          ["Neurological Exam (document abnormals/changes):";
           "Mental status · Cranial nerves · Motor · Sensory · Reflexes · Coordination · Gait";
           "Findings / Notes: _____________________________________________";
           investigatorLine]
        else [])
       ++
       (if String.eqb t "consent" then
          ["ICF Version/Date: __________ " ++ nbsp ++ nbsp ++ " IRB: __________";
           "Private area used; identity verified";
           "Provided IRB-approved ICF and time to review";
           "Discussed purpose, procedures, risks/benefits, alternatives";
           "Questions answered; no coercion/undue influence";
           "Assessed comprehension (teach-back)";
           "Signatures obtained before any procedures";
           "Signature Times (24-hr): Participant ____:____  LAR ____:____  POC ____:____"]
        else [])
       ++
       (if String.eqb t "eligibility" then
          ["Inclusion Criteria";
           "1) ______________________ " ++ nbsp ++ nbsp ++ " Met ☐  Not Met ☐  Evidence: __________";
           "2) ______________________ " ++ nbsp ++ nbsp ++ " Met ☐  Not Met ☐  Evidence: __________";
           "3) ______________________ " ++ nbsp ++ nbsp ++ " Met ☐  Not Met ☐  Evidence: __________";
           "Exclusion Criteria";
           "1) ______________________ " ++ nbsp ++ nbsp ++ " Absent ☐  Present (exclusion) ☐  Evidence: __________";
           "2) ______________________ " ++ nbsp ++ nbsp ++ " Absent ☐  Present (exclusion) ☐  Evidence: __________";
           "3) ______________________ " ++ nbsp ++ nbsp ++ " Absent ☐  Present (exclusion) ☐  Evidence: __________"]
        else [])
       ++
       (if String.eqb t "screening" then
          ["Pre-consent procedures performed: None ☐  (If any) __________";
           "Medical history obtained; updates documented";
           "Physical exam performed; abnormal findings documented";
           "Vitals (HR/BP/RR/Temp/SpO2/Wt/Ht)";
           "Labs/ECG per protocol; collection times recorded"]
        else [])
       ++
       (if String.eqb t "baseline" then
          ["Randomization performed?  Yes ☐  No ☐    Code: ______";
           "Visit procedures completed per protocol";
           "Study drug/device dispensed; lot/kit/qty/exp recorded";
           "Instructions provided (dose, storage, diary)"]
        else []) |}.

(** The label and value pairs of [HeaderPreview]. *)
Definition HeaderPreview (h : Host) (fields : Fields) : list (string * string) :=
  let f := getField fields in
  [ ("Protocol No:", JS.orElse (f "protocol") "");
    ("Subject ID:", JS.orElse (f "subjectId") "");
    ("Protocol Title:", JS.orElse (f "title") "");
    ("Initials:", JS.orElse (f "initials") "");
    ("Site No:", JS.orElse (f "site") "");
    ("Visit:", JS.orElse (f "visit") "");
    ("PI:", JS.orElse (f "pi") "");
    ("Visit Date:", toDmmmyyyy h (JS.orElse (f "visitDate") "")) ].

(** The literal prompts of each path: the text of every paragraph of the
    export after the section heading, and the lines of the card body.  The
    heading and the card title are both [inst.title]. *)
Definition paragraphText (p : Paragraph) : list string :=
  match p with
  | Para s | Bullet s => [s]
  | Heading1 _ | SectionHeading _ | Runs _ => []
  end.

Definition exportPrompts (inst : ModuleInstance) : list string :=
  flat_map paragraphText (buildModuleDocx inst).

Definition previewPrompts (inst : ModuleInstance) : list string :=
  cardBody (ModuleCard inst).

(** Two lists hold the same set of strings. *)
Definition sameSet (a b : list string) : Prop :=
  forall s, In s a <-> In s b.

Definition subsetb (a b : list string) : bool :=
  forallb (fun s => JS.includes b s) a.

Definition sameSetb (a b : list string) : bool := subsetb a b && subsetb b a.

(* ------------------------------------------------------------------------ *)
(** ** Component state and its operations *)

Record State : Type := mkState {
  fields : Fields;
  mods : list ModuleInstance;
  toAdd : string;
  msg : option string
}.

(** The four [useState] initial values. *)
Definition initialState : State :=
  {| fields := []; mods := []; toAdd := "vitals"; msg := None |}.

Definition setMods (st : State) (m : list ModuleInstance) : State :=
  {| fields := fields st; mods := m; toAdd := toAdd st; msg := msg st |}.

Definition setMsg (st : State) (m : option string) : State :=
  {| fields := fields st; mods := mods st; toAdd := toAdd st; msg := m |}.

Definition setToAdd (st : State) (t : string) : State :=
  {| fields := fields st; mods := mods st; toAdd := t; msg := msg st |}.

Definition setFields (st : State) (f : Fields) : State :=
  {| fields := f; mods := mods st; toAdd := toAdd st; msg := msg st |}.

(** A call either returns or throws. *)
Inductive Result (A : Type) : Type :=
| Ok (a : A)
| Throws (error : string).

Arguments Ok {A} a.
Arguments Throws {A} error.

(** Reading a property of [undefined]. *)
Definition TypeError : string := "TypeError: Cannot read properties of undefined".

(** [meta.repeatable ? 1 : undefined] *)
Definition initialRepeat (meta : CatalogEntry) : option Z :=
  match repeatable meta with
  | Some true => Some 1
  | _ => None
  end.

(** The updater that [addModule] hands to [setMods]:
    [(m) => [...m, { id: newId(), type: meta.value, ... }]].  [newId] is the
    string that the call of [newId()] returned: seven base-36 digits cut out
    of [Math.random()], which the code does not compare with the ids in use.
    [meta] is what [LIBRARY.find(...)!] gave; the [!] does not check it.  The
    entry is only read here, inside the updater: with [meta] undefined,
    reading [meta.value] throws at the time React runs the updater, and the
    updater yields no list. *)
Definition addModuleUpdater (newId : string) (meta : option CatalogEntry)
           (m : list ModuleInstance) : Result (list ModuleInstance) :=
  match meta with
  | Some meta =>
      Ok (m ++
          [ {| id := newId;
               type := value meta;
               title := label meta;
               repeatCount := initialRepeat meta;
               data := Some [] |} ])%list
  | None => Throws TypeError
  end.

(** [addModule] looks the entry up and queues the updater; the call itself
    returns in every case.  The result here is the outcome of the state
    update it queued: the component state once React has run the updater on
    the module list, or the error the updater threw, in which case the list
    is not replaced. *)
Definition addModule (newId : string) (st : State) : Result State :=
  match addModuleUpdater newId (findEntry (toAdd st)) (mods st) with
  | Ok m => Ok (setMods st m)
  | Throws e => Throws e
  end.

(** [m.filter((x) => x.id !== id)] *)
Definition removeFrom (key : string) (m : list ModuleInstance) : list ModuleInstance :=
  filter (fun x => negb (String.eqb (id x) key)) m.

Definition removeModule (key : string) (st : State) : State :=
  setMods st (removeFrom key (mods st)).

Definition bumpRepeat (key : string) (delta : Z) (x : ModuleInstance) : ModuleInstance :=
  if String.eqb (id x) key && isRepeatType (type x)
  then {| id := id x; type := type x; title := title x;
          repeatCount := Some (Z.max 1 (repeatOr1 x + delta));
          data := data x |}
  else x.

Definition changeRepeat (key : string) (delta : Z) (st : State) : State :=
  setMods st (map (bumpRepeat key delta) (mods st)).

(** What [handleDownloadDocx] does outside the component state. *)
Inductive Effect : Type :=
| Download (doc : Document)
| ClearMsgAfter (ms : Z).

(** [handleDownloadDocx]: the state it leaves and the effects it has.  The
    encoder and the download are taken to succeed. *)
Definition handleDownloadDocx (h : Host) (st : State) : State * list Effect :=
  let proceed :=
    (setMsg st (Some "Downloaded .docx"),
     [Download (buildDoc h (mods st) (fields st)); ClearMsgAfter 3000]) in
  match getField (fields st) "visitDate" with
  | Some visitDate =>
      if JS.truthy visitDate then
        match validateDmmmyyyy h visitDate with
        | VTrue => proceed
        | VMessage v => (setMsg st (Some v), [])
        end
      else proceed
  | None => proceed
  end.

(** What can happen to the component: the user's actions, and the timer
    that clears the message three seconds after a download.  The repeat
    buttons pass [-1] and [+1]; every other integer is allowed here too. *)
Inductive Action : Type :=
| EditField (key value : string)
| SelectType (t : string)
| AddModule (newId : string)
| RemoveModule (key : string)
| ChangeRepeat (key : string) (delta : Z)
| DownloadDocx
| MsgTimeout.

(** The [option] elements of the selector: the values of [LIBRARY]. *)
Definition offered (t : string) : bool :=
  existsb (fun l => String.eqb (value l) t) LIBRARY.

(** The selector can only be set to one of its options. *)
Definition possible (a : Action) : bool :=
  match a with
  | SelectType t => offered t
  | _ => true
  end.

Definition step (h : Host) (st : State) (a : Action) : Result State :=
  match a with
  | EditField k v => Ok (setFields st (setField (fields st) k v))
  | SelectType t => Ok (setToAdd st t)
  | AddModule newId => addModule newId st
  | RemoveModule k => Ok (removeModule k st)
  | ChangeRepeat k d => Ok (changeRepeat k d st)
  | DownloadDocx => Ok (fst (handleDownloadDocx h st))
  | MsgTimeout => Ok (setMsg st None)
  end.

(** The states the component can be in. *)
Inductive reachable (h : Host) : State -> Prop :=
| reach_init : reachable h initialState
| reach_step st a st' :
    reachable h st -> possible a = true -> step h st a = Ok st' ->
    reachable h st'.

(** The invariant of the store: an instance of a repeatable type carries a
    repeat count, and it is at least 1. *)
Definition repeatOk (x : ModuleInstance) : Prop :=
  isRepeatType (type x) = true ->
  exists n, repeatCount x = Some n /\ 1 <= n.

(* ------------------------------------------------------------------------ *)
(** ** Hosts used in the examples *)

(** A host at a fixed offset from UTC whose [Date] takes the ISO forms only
    and gives NaN for every other text. *)
Definition isoOnlyHost (tzaMs : Z) : Host :=
  {| LocalTZA := fun _ => tzaMs; parseOther := fun _ => None |}.

(** The fallback of a host that, like V8, reads day-month-year text as a
    local date, takes any day from 1 to 31 with any month, and leaves it to
    MakeDay to carry a day past the end of the month into the next one. *)
Definition carryingParse (tzaMs : Z) (s : string) : option Z :=
  match matchDmmmyyyy s with
  | Some (dd, mon, yyyy) =>
      let idx := JS.indexOf MONTHS (JS.toUpperCase mon) in
      let d := JS.Number dd in
      if (idx >=? 0) && (1 <=? d) && (d <=? 31)
      then Some (Calendar.MakeDate (Calendar.MakeDay (JS.Number yyyy) idx d) 0 - tzaMs)
      else None
  | None => None
  end.

Definition carryingHost (tzaMs : Z) : Host :=
  {| LocalTZA := fun _ => tzaMs; parseOther := carryingParse tzaMs |}.

Definition hour : Z := 3600000.

(** A canonical text by the rules of the strict branch of [toDmmmyyyy]: two
    digits from 01 to 31, one of the twelve upper-case months, four digits
    from 1900 to 2100. *)
Definition canonical (s : string) : bool :=
  match matchDmmmyyyy s with
  | Some (dd, mon, yyyy) =>
      JS.includes MONTHS mon
      && (1 <=? JS.Number dd) && (JS.Number dd <=? 31)
      && (1900 <=? JS.Number yyyy) && (JS.Number yyyy <=? 2100)
  | None => false
  end.

(** The test of the strict branch of [toDmmmyyyy], which is reached when the
    host's [Date] gave NaN: the text has the form DD-MMM-YYYY, its month put
    in upper case is one of the twelve, its day is from 1 to 31 and its year
    from 1900 to 2100. *)
Definition strictForm (s : string) : bool :=
  match matchDmmmyyyy s with
  | Some (dd, mon, yyyy) =>
      (JS.indexOf MONTHS (JS.toUpperCase mon) >=? 0)
      && (JS.Number dd >=? 1) && (JS.Number dd <=? 31)
      && (JS.Number yyyy >=? 1900) && (JS.Number yyyy <=? 2100)
  | None => false
  end.

(** The host's [Date] reads a canonical text as the local day it names. *)
Definition readsAsWritten (h : Host) (s : string) (t : Z) : Prop :=
  match matchDmmmyyyy s with
  | Some (dd, mon, yyyy) =>
      JSDate.getDate h t = JS.Number dd
      /\ JSDate.getMonth h t = JS.indexOf MONTHS mon
      /\ JSDate.getFullYear h t = JS.Number yyyy
  | None => False
  end.

(** The ten digits. *)
Definition digitChars : list ascii :=
  ["0"; "1"; "2"; "3"; "4"; "5"; "6"; "7"; "8"; "9"]%char.

(** Printing a day back: two digits that make a number from 1 up are what
    [String(n).padStart(2, "0")] yields for that number. *)
Definition dayPrintsBack (d1 d2 : ascii) : bool :=
  let s := String d1 (String d2 EmptyString) in
  (JS.Number s <? 1) || String.eqb (JS.padStart 2 "0" (JS.numToString (JS.Number s))) s.

(** Printing a year back: four digits that make a number from 1000 up are
    the decimal form of that number. *)
Definition yearPrintsBack (y1 y2 y3 y4 : ascii) : bool :=
  let s := String y1 (String y2 (String y3 (String y4 EmptyString))) in
  (JS.Number s <? 1000) || String.eqb (JS.numToString (JS.Number s)) s.

(* ------------------------------------------------------------------------ *)
(** ** The download's file name *)

Module FileName.

(** The white space and line terminators of ECMA-262, which [trim] strips,
    as UTF-8: the six of the ASCII range; U+00A0; and the three-byte ones
    U+1680, U+2000..U+200A, U+2028, U+2029, U+202F, U+205F, U+3000 and
    U+FEFF. *)
Definition isSpace2 (a b : ascii) : bool :=
  (JS.code a =? 194) && (JS.code b =? 160).

Definition isSpace3 (a b c : ascii) : bool :=
  ((JS.code a =? 225) && (JS.code b =? 154) && (JS.code c =? 128))
  || ((JS.code a =? 226) && (JS.code b =? 128)
      && (((128 <=? JS.code c) && (JS.code c <=? 138))
          || (JS.code c =? 168) || (JS.code c =? 169) || (JS.code c =? 175)))
  || ((JS.code a =? 226) && (JS.code b =? 129) && (JS.code c =? 159))
  || ((JS.code a =? 227) && (JS.code b =? 128) && (JS.code c =? 128))
  || ((JS.code a =? 239) && (JS.code b =? 187) && (JS.code c =? 191)).

(** [s.trimStart()] *)
Fixpoint trimStart (s : string) : string :=
  match s with
  | EmptyString => EmptyString
  | String a r1 =>
      if JS.isSpace a then trimStart r1
      else
        match r1 with
        | EmptyString => s
        | String b r2 =>
            if isSpace2 a b then trimStart r2
            else
              match r2 with
              | EmptyString => s
              | String c r3 => if isSpace3 a b c then trimStart r3 else s
              end
        end
  end.

(** The same from the end, on the reversed text. *)
Fixpoint trimStartRev (s : string) : string :=
  match s with
  | EmptyString => EmptyString
  | String a r1 =>
      if JS.isSpace a then trimStartRev r1
      else
        match r1 with
        | EmptyString => s
        | String b r2 =>
            if isSpace2 b a then trimStartRev r2
            else
              match r2 with
              | EmptyString => s
              | String c r3 => if isSpace3 c b a then trimStartRev r3 else s
              end
        end
  end.

(** [s.trim()] *)
Definition trim (s : string) : string :=
  JS.revString "" (trimStartRev (JS.revString "" (trimStart s))).

(** [[a-z0-9]] under the [i] flag. *)
Definition isAlnum (c : ascii) : bool := JS.isAlpha c || JS.isDigit c.

(** [s.replace(/[^a-z0-9]+/gi, "_")]; [inRun] says that the character
    before belongs to a run that has been replaced already. *)
Fixpoint collapseFrom (inRun : bool) (s : string) : string :=
  match s with
  | EmptyString => EmptyString
  | String c r =>
      if isAlnum c then String c (collapseFrom false r)
      else if inRun then collapseFrom true r
      else String "_" (collapseFrom true r)
  end.

Definition collapse (s : string) : string := collapseFrom false s.

(** [safe]: [(s || "").trim().replace(/[^a-z0-9]+/gi, "_").slice(0, 40)] *)
Definition safe (s : option string) : string :=
  String.substring 0 40 (collapse (trim (JS.orElse s ""))).

(** [`${safe(fields.protocol) || "protocol"}_source.docx`] *)
Definition filename (fields : Fields) : string :=
  (JS.orElse (Some (safe (getField fields "protocol"))) "protocol"
   ++ "_source.docx")%string.

Definition isNameChar (c : ascii) : bool := isAlnum c || (JS.code c =? 95).

Fixpoint allChars (p : ascii -> bool) (s : string) : bool :=
  match s with
  | EmptyString => true
  | String c r => p c && allChars p r
  end.

(** No two underscores next to each other. *)
Fixpoint noDoubleUnderscore (s : string) : bool :=
  match s with
  | String a ((String b _) as r) =>
      negb ((JS.code a =? 95) && (JS.code b =? 95)) && noDoubleUnderscore r
  | _ => true
  end.

End FileName.

(* ------------------------------------------------------------------------ *)
(** ** The module picker of the custom-visit variant *)

Module CustomVisitApp.

(** [prev.includes(k) ? prev.filter((x) => x !== k) : [...prev, k]] *)
Definition toggleModule (k : string) (prev : list string) : list string :=
  if JS.includes prev k
  then filter (fun x => negb (String.eqb x k)) prev
  else prev ++ [k].

(** The longest day the validator takes for a month. *)
Definition dayCap (mon : string) : Z :=
  if JS.includes ["APR"; "JUN"; "SEP"; "NOV"] mon then 30
  else if String.eqb mon "FEB" then 29
  else 31.

(** [dateValid]: [normalizedDate ? isValidDDMMMYYYY(normalizedDate) : true] *)
Definition dateValid (visitDate : option string) : bool :=
  let normalizedDate := CustomVisit.normalizeDDMMMYYYY (JS.orElse visitDate "") in
  if JS.truthy normalizedDate
  then CustomVisit.isValidDDMMMYYYY normalizedDate
  else true.

(** A character that [trim], [toUpperCase] and the replacements of
    [normalizeDDMMMYYYY] leave alone. *)
Definition isPlain (c : ascii) : bool :=
  negb (JS.isSpace c) && Ascii.eqb (JS.upperChar c) c
  && negb ((JS.code c =? 47) || (JS.code c =? 46)).

(** Every byte is of the ASCII range. *)
Definition isAsciiText (s : string) : bool :=
  FileName.allChars (fun c => JS.code c <? 128) s.

End CustomVisitApp.

(* ------------------------------------------------------------------------ *)
(** ** Further notions used in the properties *)

(** The year, month (1..12) and day that a legal date-only ISO text names. *)
Definition isoFields (s : string) : option (Z * Z * Z) :=
  match list_ascii_of_string s with
  | [y1; y2; y3; y4; h1; m1; m2; h2; d1; d2] =>
      if forallb JS.isDigit [y1; y2; y3; y4; m1; m2; d1; d2]
         && (JS.code h1 =? 45) && (JS.code h2 =? 45)
      then
        let y := JS.Number (string_of_list_ascii [y1; y2; y3; y4]) in
        let m := JS.Number (string_of_list_ascii [m1; m2]) in
        let d := JS.Number (string_of_list_ascii [d1; d2]) in
        if (1 <=? m) && (m <=? 12) && (1 <=? d)
           && (d <=? Calendar.DaysInMonth y (m - 1))
        then Some (y, m, d)
        else None
      else None
  | _ => None
  end.

(** How [toDmmmyyyy] prints a day, a month (1..12) and a year. *)
Definition printDate (y m d : Z) : string :=
  (JS.padStart 2 "0" (JS.numToString d) ++ "-"
   ++ JS.interp (JS.at_ MONTHS (m - 1)) ++ "-" ++ JS.numToString y)%string.

(** The section headings of an exported document, in order. *)
Definition sectionHeadings (doc : Document) : list string :=
  flat_map (fun c => match c with
                     | Par (SectionHeading t) => [t]
                     | _ => []
                     end) (children doc).

(** An instance as [addModule] makes them and [changeRepeat] keeps them:
    of a catalog type, titled with the label of its entry, with a repeat
    count of at least 1 if the entry is repeatable and none otherwise, and
    with an empty data bag. *)
Definition wellFormed (x : ModuleInstance) : Prop :=
  exists meta,
    In meta LIBRARY
    /\ type x = value meta
    /\ title x = label meta
    /\ (repeatable meta = Some true -> exists n, repeatCount x = Some n /\ 1 <= n)
    /\ (repeatable meta <> Some true -> repeatCount x = None)
    /\ data x = Some [].

Definition ids (st : State) : list string := map id (mods st).

(** The integers from [a] to [b]. *)
Definition range (a b : Z) : list Z :=
  map (fun k => a + Z.of_nat k) (seq 0 (Z.to_nat (b - a + 1))).

(* ------------------------------------------------------------------------ *)
(** ** The build check for backup files ([scripts/check-backups.js]) *)

Module CheckBackups.

(** What [readdirSync(dir, { withFileTypes: true })] lists: a directory
    with its own listing, or anything else (a file, a link), by name; the
    names hold no separator.  The tree under [src] is the script's input. *)
Local Unset Elimination Schemes.


Local Set Elimination Schemes.

Fixpoint hasPrefix (p s : string) : bool :=
  match p with
  | EmptyString => true
  | String a p' =>
      match s with
      | EmptyString => false
      | String b s' => Ascii.eqb a b && hasPrefix p' s'
      end
  end.

Fixpoint contains (p s : string) : bool :=
  hasPrefix p s
  || match s with
     | EmptyString => false
     | String _ s' => contains p s'
     end.

Definition hasSuffix (p s : string) : bool :=
  hasPrefix (JS.revString "" p) (JS.revString "" s).

(** [/\.tsx$/i.test(name)]: under the [i] flag only the ASCII letters
    fold, so the test is the one on the name in upper case. *)
Definition endsInTsx (name : string) : bool :=
  hasSuffix ".TSX" (JS.toUpperCase name).

(** [/backup/i.test(name)] *)
Definition mentionsBackup (name : string) : bool :=
  contains "BACKUP" (JS.toUpperCase name).

Definition isBackupTsx (name : string) : bool :=
  endsInTsx name && mentionsBackup name.






End CheckBackups.

(* ------------------------------------------------------------------------ *)
(** ** Reading the exported header *)

(** The bold labels of a paragraph, each with the text run after it. *)
Fixpoint runPairs (rs : list Run) : list (string * string) :=
  match rs with
  | [] => []
  | L l :: ((TextRun v :: r) as rest) => (l, v) :: runPairs rest
  | _ :: rest => runPairs rest
  end.

Definition headerPairs (table : list (list Paragraph)) : list (string * string) :=
  flat_map (fun cell =>
              flat_map (fun p => match p with
                                 | Runs rs => runPairs rs
                                 | _ => []
                                 end) cell) table.

(* ------------------------------------------------------------------------ *)
(** ** Proof steps that recur *)

(** Unfolds the two renderers at an instance whose type is known and
    evaluates the comparisons of the type tag. *)
Ltac eval_tags :=
  repeat match goal with
         | |- context [String.eqb ?a ?b] =>
             let v := eval vm_compute in (String.eqb a b) in
             change (String.eqb a b) with v
         end.

Ltac render Ht :=
  unfold exportPrompts, previewPrompts, buildModuleDocx, ModuleCard;
  rewrite ?Ht; eval_tags; cbv beta iota zeta;
  cbn [cardBody app];
  repeat (rewrite ?flat_map_app; cbn [flat_map paragraphText app]);
  rewrite ?app_nil_r.

Ltac eval_sameSetb :=
  match goal with
  | |- context [sameSetb ?a ?b] =>
      let v := eval vm_compute in (sameSetb a b) in
      change (sameSetb a b) with v
  end.

(* ======================================================================== *)
(** * Properties *)

(* ------------------------------------------------------------------------ *)
(** ** The calendar functions *)

(** [YearFromTime] is the year ECMA-262 defines: the largest [y] whose first
    instant is not after [t]. *)
Lemma YearFromTime_spec (t : Z) :
  Calendar.TimeFromYear (Calendar.YearFromTime t) <= t
  /\ t < Calendar.TimeFromYear (Calendar.YearFromTime t + 1).
Proof.
  unfold Calendar.TimeFromYear, Calendar.YearFromTime, Calendar.Day,
    Calendar.DayFromYear, Calendar.msPerDay.
  repeat match goal with
         | |- context [if ?b then _ else _] => destruct b eqn:?
         end;
    rewrite ?Z.leb_le, ?Z.leb_gt in *;
    Z.div_mod_to_equations; lia.
Qed.

(** The fields of a date depend on the day number only. *)
Lemma fields_of_day (t d : Z) :
  Calendar.Day t = d ->
  Calendar.YearFromTime t = Calendar.YearFromTime (d * Calendar.msPerDay)
  /\ Calendar.MonthFromTime t = Calendar.MonthFromTime (d * Calendar.msPerDay)
  /\ Calendar.DateFromTime t = Calendar.DateFromTime (d * Calendar.msPerDay).
Proof.
  intros Hd.
  assert (Hd' : Calendar.Day (d * Calendar.msPerDay) = Calendar.Day t).
  { rewrite Hd. unfold Calendar.Day, Calendar.msPerDay. now rewrite Z.div_mul. }
  assert (Hy : Calendar.YearFromTime t
               = Calendar.YearFromTime (d * Calendar.msPerDay)).
  { unfold Calendar.YearFromTime. now rewrite Hd'. }
  assert (Hw : Calendar.DayWithinYear t
               = Calendar.DayWithinYear (d * Calendar.msPerDay)).
  { unfold Calendar.DayWithinYear. now rewrite Hd', Hy. }
  assert (Hl : Calendar.InLeapYear t
               = Calendar.InLeapYear (d * Calendar.msPerDay)).
  { unfold Calendar.InLeapYear. now rewrite Hy. }
  assert (Hm : Calendar.MonthFromTime t
               = Calendar.MonthFromTime (d * Calendar.msPerDay)).
  { unfold Calendar.MonthFromTime. now rewrite Hw, Hl. }
  repeat split; try assumption.
  unfold Calendar.DateFromTime. now rewrite Hm, Hw, Hl.
Qed.

(* ------------------------------------------------------------------------ *)
(** ** Strings *)

Lemma truthy_true_iff (s : string) : JS.truthy s = true <-> s <> "".
Proof.
  destruct s; simpl; split; intros H; congruence.
Qed.

Lemma truthy_false_iff (s : string) : JS.truthy s = false <-> s = "".
Proof.
  destruct s; simpl; split; intros H; congruence.
Qed.

Lemma truthy_app_char (a : string) (c : ascii) (b : string) :
  JS.truthy (a ++ String c b) = true.
Proof. destruct a; reflexivity. Qed.

(** Whatever the host's [Date] makes of a text, the branch that formats a
    parsed date never yields the empty string. *)
Lemma date_branch_nonempty (h : Host) (input : string) (t : Z) :
  JSDate.newDate h input = Some t ->
  JS.truthy (toDmmmyyyy h input) = true.
Proof.
  intros Ht. unfold toDmmmyyyy. rewrite Ht.
  apply truthy_app_char.
Qed.

(* ------------------------------------------------------------------------ *)
(** ** The validator and the normaliser *)

Lemma validate_true_iff (h : Host) (s : string) :
  validateDmmmyyyy h s = VTrue <-> toDmmmyyyy h s <> "".
Proof.
  unfold validateDmmmyyyy. rewrite <- truthy_true_iff.
  destruct (JS.truthy (toDmmmyyyy h s)); split; intros H;
    try reflexivity; try discriminate.
Qed.

Lemma validate_not_true (h : Host) (s : string) :
  validateDmmmyyyy h s <> VTrue ->
  toDmmmyyyy h s = "" /\ validateDmmmyyyy h s = VMessage dateMessage.
Proof.
  intros H. unfold validateDmmmyyyy in *.
  destruct (JS.truthy (toDmmmyyyy h s)) eqn:E.
  - now elim H.
  - split; [now apply truthy_false_iff | reflexivity].
Qed.

(** The value the preview shows next to "Visit Date:". *)
Lemma preview_visit_date (h : Host) (f : Fields) :
  getField (HeaderPreview h f) "Visit Date:"
  = Some (toDmmmyyyy h (JS.orElse (getField f "visitDate") "")).
Proof. reflexivity. Qed.

Lemma orElse_nonempty (s d : string) : s <> "" -> JS.orElse (Some s) d = s.
Proof. intros H. simpl. apply truthy_true_iff in H. now rewrite H. Qed.

(** The export with a visit date that is present and does not validate. *)
Lemma export_refused (h : Host) (st : State) (s : string) :
  getField (fields st) "visitDate" = Some s ->
  s <> "" ->
  validateDmmmyyyy h s <> VTrue ->
  handleDownloadDocx h st = (setMsg st (Some dateMessage), []).
Proof.
  intros Hf Hs Hv. unfold handleDownloadDocx. rewrite Hf.
  apply truthy_true_iff in Hs. rewrite Hs.
  destruct (validate_not_true h s Hv) as [_ E]. now rewrite E.
Qed.

(** The export with a visit date that validates, or with none. *)
Lemma export_proceeds (h : Host) (st : State) (s : string) :
  getField (fields st) "visitDate" = Some s ->
  validateDmmmyyyy h s = VTrue ->
  handleDownloadDocx h st
  = (setMsg st (Some "Downloaded .docx"),
     [Download (buildDoc h (mods st) (fields st)); ClearMsgAfter 3000]).
Proof.
  intros Hf Hv. unfold handleDownloadDocx. rewrite Hf, Hv.
  now destruct (JS.truthy s).
Qed.

(** The export with no visit date, or an empty one: the validator is not
    asked. *)
Lemma export_unchecked (h : Host) (st : State) :
  JS.orElse (getField (fields st) "visitDate") "" = "" ->
  handleDownloadDocx h st
  = (setMsg st (Some "Downloaded .docx"),
     [Download (buildDoc h (mods st) (fields st)); ClearMsgAfter 3000]).
Proof.
  intros H. unfold handleDownloadDocx.
  destruct (getField (fields st) "visitDate") as [vd |]; [| reflexivity].
  destruct vd; [reflexivity | discriminate H].
Qed.

(** The normaliser returns the empty string for exactly the texts that the
    host's [Date] does not take and that fail the test of the strict
    branch. *)
Lemma normaliser_empty_iff (h : Host) (s : string) :
  toDmmmyyyy h s = "" <-> JSDate.newDate h s = None /\ strictForm s = false.
Proof.
  destruct (JSDate.newDate h s) as [t |] eqn:E.
  - pose proof (date_branch_nonempty h s t E) as T.
    apply truthy_true_iff in T.
    split; [intros H; contradiction | intros [H _]; discriminate H].
  - unfold toDmmmyyyy, strictForm. rewrite E.
    destruct (matchDmmmyyyy s) as [[[dd mon] yyyy] |]; [| tauto].
    cbv zeta.
    destruct ((JS.indexOf MONTHS (JS.toUpperCase mon) >=? 0)
              && (JS.Number dd >=? 1) && (JS.Number dd <=? 31)
              && (JS.Number yyyy >=? 1900) && (JS.Number yyyy <=? 2100));
      [| tauto].
    pose proof (truthy_app_char dd "-" (JS.toUpperCase mon ++ "-" ++ yyyy)) as T.
    apply truthy_true_iff in T.
    split; [intros H; contradiction | intros [_ H]; discriminate H].
Qed.

(** With no visit date the export goes ahead, and the preview shows no
    date. *)
Lemma empty_date_exports_with_blank_preview :
  let h := isoOnlyHost 0 in
  getField (fields initialState) "visitDate" = None
  /\ validateDmmmyyyy h "" = VMessage dateMessage
  /\ getField (HeaderPreview h (fields initialState)) "Visit Date:" = Some ""
  /\ handleDownloadDocx h initialState
     = (setMsg initialState (Some "Downloaded .docx"),
        [Download (buildDoc h [] []); ClearMsgAfter 3000]).
Proof. intros h. repeat split. Qed.

(** C10, as the code has it.  The validator answers [true] exactly when the
    normaliser returns a non-empty string, and answers the fixed message
    otherwise; that is, it answers [true] exactly for the texts that the
    host's [Date] takes or that pass the test of the strict branch.  For a
    visit date that is filled in, the export is refused exactly when the
    preview shows a blank date.  For a visit date that is missing or empty
    the two do not agree: the export does not ask the validator and goes
    ahead, while the preview shows what the normaliser makes of the empty
    text, a blank date on every host whose [Date] gives NaN for it, where
    the validator would have answered the message. *)
Theorem validate_agrees_on_filled_dates (h : Host) (s : string) :
  (validateDmmmyyyy h s = VTrue <-> toDmmmyyyy h s <> "")
  /\ (validateDmmmyyyy h s = VTrue
      \/ validateDmmmyyyy h s = VMessage dateMessage)
  /\ (validateDmmmyyyy h s = VTrue
      <-> (exists t, JSDate.newDate h s = Some t) \/ strictForm s = true)
  /\ (forall st : State,
        getField (fields st) "visitDate" = Some s ->
        s <> "" ->
        (snd (handleDownloadDocx h st) = []
         <-> getField (HeaderPreview h (fields st)) "Visit Date:" = Some ""))
  /\ (forall st : State,
        JS.orElse (getField (fields st) "visitDate") "" = "" ->
        handleDownloadDocx h st
        = (setMsg st (Some "Downloaded .docx"),
           [Download (buildDoc h (mods st) (fields st)); ClearMsgAfter 3000])
        /\ getField (HeaderPreview h (fields st)) "Visit Date:"
           = Some (toDmmmyyyy h "")
        /\ (JSDate.newDate h "" = None ->
            getField (HeaderPreview h (fields st)) "Visit Date:" = Some ""
            /\ validateDmmmyyyy h "" = VMessage dateMessage)).
Proof.
  split; [apply validate_true_iff |].
  split.
  { unfold validateDmmmyyyy. destruct (JS.truthy _); auto. }
  split.
  { rewrite validate_true_iff.
    pose proof (normaliser_empty_iff h s) as N.
    destruct (JSDate.newDate h s) as [t |]; destruct (strictForm s).
    - split; [intros _; left; now exists t | intros _ E].
      apply N in E as [E _]. discriminate E.
    - split; [intros _; left; now exists t | intros _ E].
      apply N in E as [E _]. discriminate E.
    - split; [intros _; now right | intros _ E].
      apply N in E as [_ E]. discriminate E.
    - split.
      + intros H. elim H. apply N. now split.
      + intros [[t E] | E]; discriminate E. }
  split.
  { intros st Hf Hs.
    rewrite preview_visit_date, Hf, (orElse_nonempty s "" Hs).
    destruct (validateDmmmyyyy h s) eqn:Hv.
    - rewrite (export_proceeds h st s Hf Hv). simpl.
      apply validate_true_iff in Hv.
      split; [discriminate | intros E; inversion E; contradiction].
    - assert (Hn : validateDmmmyyyy h s <> VTrue) by (rewrite Hv; discriminate).
      rewrite (export_refused h st s Hf Hs Hn). simpl.
      destruct (validate_not_true h s Hn) as [E _]. rewrite E.
      split; reflexivity. }
  intros st He.
  split; [now apply export_unchecked |].
  rewrite preview_visit_date, He.
  split; [reflexivity |].
  intros Hd.
  assert (E : toDmmmyyyy h "" = "").
  { apply normaliser_empty_iff. now split. }
  unfold validateDmmmyyyy. rewrite E. now split.
Qed.

(** At a state whose visit date is "31-02-2025", which no branch of the
    normaliser takes, export and preview agree; at a state whose visit date
    was cleared they do not. *)
Lemma validate_agrees_witness :
  let h := isoOnlyHost 0 in
  let st := setFields initialState [("visitDate", "31-02-2025")] in
  let cleared := setFields initialState [("visitDate", "")] in
  validateDmmmyyyy h "31-02-2025" = VMessage dateMessage
  /\ snd (handleDownloadDocx h st) = []
  /\ getField (HeaderPreview h (fields st)) "Visit Date:" = Some ""
  /\ handleDownloadDocx h cleared
     = (setMsg cleared (Some "Downloaded .docx"),
        [Download (buildDoc h (mods cleared) (fields cleared));
         ClearMsgAfter 3000])
  /\ getField (HeaderPreview h (fields cleared)) "Visit Date:" = Some "".
Proof.
  intros h st cleared.
  destruct (validate_agrees_on_filled_dates h "31-02-2025")
    as [_ [_ [_ [H H']]]].
  specialize (H st eq_refl ltac:(discriminate)).
  destruct (H' cleared eq_refl) as [E [_ B]].
  destruct (B eq_refl) as [B' _].
  split; [reflexivity |].
  split; [reflexivity |].
  split; [apply H; reflexivity |].
  split; [exact E | exact B'].
Defined.

(** C5.  Where the code departs from the claim.  The ranges of the date
    rules (day 1 to 31, year 1900 to 2100) are checked in the strict branch
    only, and that branch is reached only when the host's [Date] gave NaN.
    "28-AUG-1800" fails the strict test and is refused, with the message and
    nothing built, on a host whose [Date] does not take it; on a host whose
    [Date] reads day-month-year text it comes back unchanged, validates, and
    the export goes ahead with it.  "0999-01-01" is an ISO date, which every
    host takes: it validates everywhere and comes back as a date of the
    year 999 or 998. *)
Theorem out_of_range_date_validates :
  strictForm "28-AUG-1800" = false
  /\ toDmmmyyyy (isoOnlyHost 0) "28-AUG-1800" = ""
  /\ toDmmmyyyy (carryingHost 0) "28-AUG-1800" = "28-AUG-1800"
  /\ validateDmmmyyyy (carryingHost 0) "28-AUG-1800" = VTrue
  /\ (let st := setFields initialState [("visitDate", "28-AUG-1800")] in
      handleDownloadDocx (isoOnlyHost 0) st = (setMsg st (Some dateMessage), [])
      /\ msg (fst (handleDownloadDocx (isoOnlyHost 0) st)) = Some dateMessage
      /\ handleDownloadDocx (carryingHost 0) st
         = (setMsg st (Some "Downloaded .docx"),
            [Download (buildDoc (carryingHost 0) (mods st) (fields st));
             ClearMsgAfter 3000])
      /\ msg (fst (handleDownloadDocx (carryingHost 0) st))
         = Some "Downloaded .docx")
  /\ (forall h : Host,
        toDmmmyyyy h "0999-01-01" <> ""
        /\ validateDmmmyyyy h "0999-01-01" = VTrue)
  /\ toDmmmyyyy (isoOnlyHost 0) "0999-01-01" = "01-JAN-999"
  /\ toDmmmyyyy (isoOnlyHost (-5 * hour)) "0999-01-01" = "31-DEC-998".
Proof.
  split; [reflexivity |].
  split; [reflexivity |].
  split; [vm_compute; reflexivity |].
  split; [vm_compute; reflexivity |].
  split; [repeat split; vm_compute; reflexivity |].
  split; [| split; vm_compute; reflexivity].
  intros h.
  assert (T : JS.truthy (toDmmmyyyy h "0999-01-01") = true).
  { apply (date_branch_nonempty h "0999-01-01" (-30641760000000)).
    reflexivity. }
  split; [now apply truthy_true_iff |].
  unfold validateDmmmyyyy. now rewrite T.
Qed.

(* ------------------------------------------------------------------------ *)
(** ** Characters, digits and months *)

Lemma char_of_code (c : ascii) (n : Z) :
  JS.code c = n -> c = ascii_of_N (Z.to_N n).
Proof.
  unfold JS.code. intros <-. now rewrite N2Z.id, ascii_N_embedding.
Qed.

Lemma hyphen_of_code (c : ascii) : (JS.code c =? 45) = true -> c = "-"%char.
Proof.
  intros H. apply Z.eqb_eq in H. now rewrite (char_of_code c 45 H).
Qed.

Lemma isDigit_cases (c : ascii) : JS.isDigit c = true -> In c digitChars.
Proof.
  unfold JS.isDigit. intros H. apply andb_true_iff in H as [H1 H2].
  apply Z.leb_le in H1, H2.
  assert (Hc : JS.code c = 48 \/ JS.code c = 49 \/ JS.code c = 50
               \/ JS.code c = 51 \/ JS.code c = 52 \/ JS.code c = 53
               \/ JS.code c = 54 \/ JS.code c = 55 \/ JS.code c = 56
               \/ JS.code c = 57) by lia.
  repeat (destruct Hc as [Hc | Hc];
          [rewrite (char_of_code c _ Hc); simpl; tauto |]).
  rewrite (char_of_code c _ Hc); simpl; tauto.
Qed.

Lemma all_days_print_back :
  forallb (fun d1 => forallb (dayPrintsBack d1) digitChars) digitChars = true.
Proof. vm_compute. reflexivity. Qed.

Lemma all_years_print_back :
  forallb (fun y1 => forallb (fun y2 => forallb (fun y3 =>
    forallb (yearPrintsBack y1 y2 y3) digitChars) digitChars) digitChars)
    digitChars = true.
Proof. vm_compute. reflexivity. Qed.

Lemma day_prints_back (d1 d2 : ascii) :
  JS.isDigit d1 = true -> JS.isDigit d2 = true ->
  1 <= JS.Number (String d1 (String d2 EmptyString)) ->
  JS.padStart 2 "0" (JS.numToString (JS.Number (String d1 (String d2 EmptyString))))
  = String d1 (String d2 EmptyString).
Proof.
  intros H1 H2 Hn.
  apply isDigit_cases in H1, H2.
  pose proof all_days_print_back as A.
  rewrite forallb_forall in A. specialize (A d1 H1).
  rewrite forallb_forall in A. specialize (A d2 H2).
  unfold dayPrintsBack in A. apply orb_true_iff in A as [A | A].
  - apply Z.ltb_lt in A. lia.
  - now apply String.eqb_eq in A.
Qed.

Lemma year_prints_back (y1 y2 y3 y4 : ascii) :
  JS.isDigit y1 = true -> JS.isDigit y2 = true ->
  JS.isDigit y3 = true -> JS.isDigit y4 = true ->
  1000 <= JS.Number (String y1 (String y2 (String y3 (String y4 EmptyString)))) ->
  JS.numToString (JS.Number (String y1 (String y2 (String y3 (String y4 EmptyString)))))
  = String y1 (String y2 (String y3 (String y4 EmptyString))).
Proof.
  intros H1 H2 H3 H4 Hn.
  apply isDigit_cases in H1, H2, H3, H4.
  pose proof all_years_print_back as A.
  rewrite forallb_forall in A. specialize (A y1 H1).
  rewrite forallb_forall in A. specialize (A y2 H2).
  rewrite forallb_forall in A. specialize (A y3 H3).
  rewrite forallb_forall in A. specialize (A y4 H4).
  unfold yearPrintsBack in A. apply orb_true_iff in A as [A | A].
  - apply Z.ltb_lt in A. lia.
  - now apply String.eqb_eq in A.
Qed.

(** A month of the table is in upper case already, has an index, and is
    what the table holds at that index. *)
Lemma month_of_table (mon : string) :
  JS.includes MONTHS mon = true ->
  JS.toUpperCase mon = mon
  /\ (JS.indexOf MONTHS mon >=? 0) = true
  /\ JS.at_ MONTHS (JS.indexOf MONTHS mon) = Some mon.
Proof.
  unfold JS.includes. intros H.
  apply existsb_exists in H as [m [Hin Heq]].
  apply String.eqb_eq in Heq. subst m.
  simpl in Hin.
  repeat (destruct Hin as [<- | Hin]; [repeat split |]).
  contradiction.
Qed.

(** What a match of the pattern says about the text. *)
Lemma matchDmmmyyyy_shape (s dd mon yyyy : string) :
  matchDmmmyyyy s = Some (dd, mon, yyyy) ->
  s = dd ++ "-" ++ mon ++ "-" ++ yyyy
  /\ (exists d1 d2, dd = String d1 (String d2 EmptyString)
        /\ JS.isDigit d1 = true /\ JS.isDigit d2 = true)
  /\ (exists y1 y2 y3 y4,
        yyyy = String y1 (String y2 (String y3 (String y4 EmptyString)))
        /\ JS.isDigit y1 = true /\ JS.isDigit y2 = true
        /\ JS.isDigit y3 = true /\ JS.isDigit y4 = true).
Proof.
  unfold matchDmmmyyyy. intros H.
  rewrite <- (string_of_list_ascii_of_string s).
  destruct (list_ascii_of_string s)
    as [|d1 [|d2 [|h1 [|a1 [|a2 [|a3 [|h2 [|y1 [|y2 [|y3 [|y4 [|]]]]]]]]]]]];
    try discriminate H.
  destruct (forallb JS.isDigit [d1; d2; y1; y2; y3; y4]) eqn:D;
    [| discriminate H].
  destruct (forallb JS.isAlpha [a1; a2; a3]) eqn:A; [| discriminate H].
  destruct (JS.code h1 =? 45) eqn:H1; [| discriminate H].
  destruct (JS.code h2 =? 45) eqn:H2; [| discriminate H].
  simpl in H. injection H as <- <- <-.
  apply hyphen_of_code in H1, H2. subst h1 h2.
  simpl in D. repeat (apply andb_true_iff in D as [? D]).
  split; [reflexivity |].
  split; [exists d1, d2; auto | exists y1, y2, y3, y4; auto].
Qed.

(* ------------------------------------------------------------------------ *)
(** ** Normalising text that is canonical already *)

(** X11.  A canonical text comes back unchanged whenever the host's [Date]
    either rejects it or reads it as the local day it names. *)
Lemma canonical_fixed (h : Host) (s : string) :
  canonical s = true ->
  (JSDate.newDate h s = None
   \/ exists t, JSDate.newDate h s = Some t /\ readsAsWritten h s t) ->
  toDmmmyyyy h s = s.
Proof.
  unfold canonical, readsAsWritten.
  destruct (matchDmmmyyyy s) as [[[dd mon] yyyy] |] eqn:M; [| discriminate].
  intros C Hhost.
  repeat (apply andb_true_iff in C as [C ?]).
  destruct (month_of_table mon C) as [Hup [Hidx Hat]].
  destruct (matchDmmmyyyy_shape s dd mon yyyy M)
    as [Hs [[d1 [d2 [Edd [Hd1 Hd2]]]] [y1 [y2 [y3 [y4 [Ey [? [? [? ?]]]]]]]]]].
  repeat match goal with
         | H : (_ <=? _) = true |- _ => apply Z.leb_le in H
         end.
  unfold toDmmmyyyy.
  destruct Hhost as [Hnone | [t [Hsome [Hd [Hm Hy]]]]].
  - rewrite Hnone, M, Hup, Hidx. simpl.
    replace (JS.Number dd >=? 1) with true by (symmetry; apply Z.geb_le; lia).
    replace (JS.Number dd <=? 31) with true by (symmetry; apply Z.leb_le; lia).
    replace (JS.Number yyyy >=? 1900) with true by (symmetry; apply Z.geb_le; lia).
    replace (JS.Number yyyy <=? 2100) with true by (symmetry; apply Z.leb_le; lia).
    simpl. now rewrite Hs.
  - rewrite Hsome, Hd, Hm, Hy, Hat. simpl JS.interp.
    rewrite Edd, day_prints_back by (subst dd; auto; lia).
    rewrite Ey, year_prints_back by (subst yyyy; auto; lia).
    rewrite Hs. now subst dd yyyy.
Qed.

(** "28-AUG-2025" comes back unchanged on a host that rejects the text and
    on one that reads it as a local date. *)
Lemma aug28_canonical_fixed :
  toDmmmyyyy (isoOnlyHost (-5 * hour)) "28-AUG-2025" = "28-AUG-2025"
  /\ toDmmmyyyy (carryingHost (-5 * hour)) "28-AUG-2025" = "28-AUG-2025".
Proof.
  split.
  - apply canonical_fixed; [reflexivity | left; reflexivity].
  - apply canonical_fixed; [reflexivity |].
    right. exists 1756357200000. split; [reflexivity |].
    vm_compute. repeat split.
Defined.

(* ------------------------------------------------------------------------ *)
(** ** The date-only ISO form and the local time zone *)

Lemma parse_iso_2025_08_28 (h : Host) :
  JSDate.newDate h "2025-08-28" = Some (20328 * Calendar.msPerDay).
Proof. reflexivity. Qed.

Lemma day_shifted (d o : Z) :
  Calendar.Day (d * Calendar.msPerDay + o)
  = d + o / Calendar.msPerDay.
Proof.
  unfold Calendar.Day, Calendar.msPerDay.
  rewrite Z.add_comm, Z.div_add by lia. lia.
Qed.

(** The local fields of midnight UTC of a day, on a host behind UTC by less
    than a day: those of the day before. *)
Lemma local_fields_west (h : Host) (d : Z) :
  (forall t, - (24 * hour) <= LocalTZA h t < 0) ->
  let t := d * Calendar.msPerDay in
  let p := (d - 1) * Calendar.msPerDay in
  JSDate.getFullYear h t = Calendar.YearFromTime p
  /\ JSDate.getMonth h t = Calendar.MonthFromTime p
  /\ JSDate.getDate h t = Calendar.DateFromTime p.
Proof.
  intros Hz t p.
  unfold JSDate.getFullYear, JSDate.getMonth, JSDate.getDate, JSDate.LocalTime.
  apply fields_of_day. subst t. rewrite day_shifted.
  specialize (Hz (d * Calendar.msPerDay)).
  unfold hour, Calendar.msPerDay in *.
  assert (LocalTZA h (d * 86400000) / 86400000 = -1)
    by (Z.div_mod_to_equations; lia).
  lia.
Qed.

(** The same on a host at UTC or ahead of it by less than a day: those of
    the day itself. *)
Lemma local_fields_east (h : Host) (d : Z) :
  (forall t, 0 <= LocalTZA h t < 24 * hour) ->
  let t := d * Calendar.msPerDay in
  JSDate.getFullYear h t = Calendar.YearFromTime t
  /\ JSDate.getMonth h t = Calendar.MonthFromTime t
  /\ JSDate.getDate h t = Calendar.DateFromTime t.
Proof.
  intros Hz t.
  unfold JSDate.getFullYear, JSDate.getMonth, JSDate.getDate, JSDate.LocalTime.
  apply fields_of_day. subst t. rewrite day_shifted.
  specialize (Hz (d * Calendar.msPerDay)).
  unfold hour, Calendar.msPerDay in *.
  assert (LocalTZA h (d * 86400000) / 86400000 = 0)
    by (Z.div_mod_to_equations; lia).
  lia.
Qed.

(** On a host at UTC or east of it the ISO text gives the day it names. *)
Lemma iso_date_east_of_utc (h : Host) :
  (forall t, 0 <= LocalTZA h t < 24 * hour) ->
  toDmmmyyyy h "2025-08-28" = "28-AUG-2025".
Proof.
  intros Hz. unfold toDmmmyyyy. rewrite parse_iso_2025_08_28.
  destruct (local_fields_east h 20328 Hz) as [Hy [Hm Hd]].
  rewrite Hy, Hm, Hd. reflexivity.
Qed.

(** C3.  The ISO text "2025-08-28" is read as midnight UTC and printed from
    the local fields of that instant: on every host west of Greenwich the
    normaliser returns "27-AUG-2025", where the specification expects
    "28-AUG-2025". *)
Theorem iso_date_west_of_utc (h : Host) :
  (forall t, - (24 * hour) <= LocalTZA h t < 0) ->
  toDmmmyyyy h "2025-08-28" = "27-AUG-2025".
Proof.
  intros Hz. unfold toDmmmyyyy. rewrite parse_iso_2025_08_28.
  destruct (local_fields_west h 20328 Hz) as [Hy [Hm Hd]].
  rewrite Hy, Hm, Hd. reflexivity.
Qed.

(** At UTC-05:00. *)
Lemma iso_date_west_witness :
  toDmmmyyyy (isoOnlyHost (-5 * hour)) "2025-08-28" = "27-AUG-2025".
Proof.
  apply (iso_date_west_of_utc (isoOnlyHost (-5 * hour))).
  intros t. unfold hour. simpl. lia.
Defined.

(* ------------------------------------------------------------------------ *)
(** ** 31 February *)

(** On a host that rejects the text the strict branch hands "31-FEB-2025"
    back; on one that reads it the way V8 does it becomes 3 March.  Neither
    is the empty result. *)
Lemma feb31_is_normalised :
  toDmmmyyyy (isoOnlyHost 0) "31-FEB-2025" = "31-FEB-2025"
  /\ toDmmmyyyy (carryingHost 0) "31-FEB-2025" = "03-MAR-2025".
Proof. split; reflexivity. Qed.

(** C2, as the code has it.  On every host the normaliser returns a
    non-empty string for "31-FEB-2025" and the validator accepts it: the
    strict branch only asks for a day from 1 to 31.  The February cap is in
    the validator of the custom-visit variant, which rejects the text. *)
Theorem feb31_only_rejected_by_custom_visit (h : Host) :
  JS.truthy (toDmmmyyyy h "31-FEB-2025") = true
  /\ validateDmmmyyyy h "31-FEB-2025" = VTrue
  /\ (JSDate.newDate h "31-FEB-2025" = None ->
      toDmmmyyyy h "31-FEB-2025" = "31-FEB-2025")
  /\ CustomVisit.isValidDDMMMYYYY
       (CustomVisit.normalizeDDMMMYYYY "31-FEB-2025") = false.
Proof.
  assert (Hstrict : JSDate.newDate h "31-FEB-2025" = None ->
                    toDmmmyyyy h "31-FEB-2025" = "31-FEB-2025").
  { intros Hn. unfold toDmmmyyyy. rewrite Hn. reflexivity. }
  assert (Ht : JS.truthy (toDmmmyyyy h "31-FEB-2025") = true).
  { destruct (JSDate.newDate h "31-FEB-2025") as [t |] eqn:E.
    - exact (date_branch_nonempty h _ t E).
    - now rewrite (Hstrict eq_refl). }
  split; [exact Ht |].
  split; [unfold validateDmmmyyyy; now rewrite Ht |].
  split; [exact Hstrict | reflexivity].
Qed.

Lemma feb31_witness :
  toDmmmyyyy (isoOnlyHost 0) "31-FEB-2025" = "31-FEB-2025".
Proof.
  destruct (feb31_only_rejected_by_custom_visit (isoOnlyHost 0))
    as [_ [_ [H _]]].
  apply H. reflexivity.
Defined.

(** C4.  "31-APR-2025" and "31-FEB-2025" are canonical by the rules of the
    strict branch, which would hand them back unchanged; but [new Date] is
    tried first, and a host that reads such text and carries the day over
    (V8 does) turns them into the first of May and the third of March. *)
Theorem canonical_text_rewritten_by_date :
  canonical "31-APR-2025" = true
  /\ toDmmmyyyy (carryingHost (-5 * hour)) "31-APR-2025" = "01-MAY-2025"
  /\ canonical "31-FEB-2025" = true
  /\ toDmmmyyyy (carryingHost (-5 * hour)) "31-FEB-2025" = "03-MAR-2025"
  /\ toDmmmyyyy (isoOnlyHost (-5 * hour)) "31-APR-2025" = "31-APR-2025".
Proof. repeat split. Qed.

(* ------------------------------------------------------------------------ *)
(** ** The two renderers *)

Lemma includes_In (l : list string) (s : string) :
  JS.includes l s = true <-> In s l.
Proof.
  unfold JS.includes. rewrite existsb_exists. split.
  - intros [x [Hin Heq]]. apply String.eqb_eq in Heq. now subst x.
  - intros Hin. exists s. split; [assumption | apply String.eqb_refl].
Qed.

Lemma subsetb_spec (a b : list string) :
  subsetb a b = true <-> (forall s, In s a -> In s b).
Proof.
  unfold subsetb. rewrite forallb_forall.
  split; intros H s Hs; apply includes_In; auto.
Qed.

Lemma sameSetb_spec (a b : list string) :
  sameSetb a b = true <-> sameSet a b.
Proof.
  unfold sameSetb, sameSet. rewrite andb_true_iff, !subsetb_spec.
  split.
  - intros [H1 H2] s. split; auto.
  - intros H. split; intros s Hs; now apply H.
Qed.

Lemma sameSetb_false (a b : list string) :
  sameSetb a b = false -> ~ sameSet a b.
Proof.
  intros H S. apply sameSetb_spec in S. congruence.
Qed.

(** Both paths print the instance's title above the prompts. *)
Lemma title_in_both (inst : ModuleInstance) :
  hd_error (buildModuleDocx inst) = Some (SectionHeading (title inst))
  /\ cardTitle (ModuleCard inst) = title inst.
Proof.
  split; [| reflexivity].
  unfold buildModuleDocx.
  repeat match goal with
         | |- context [if ?b then _ else _] => destruct b
         end; reflexivity.
Qed.

(** C1, at the screening module.  The export prints six prompts, the
    preview five: "Con meds reviewed; changes recorded" is in the export
    only, so the two sets of prompts differ for every screening instance. *)
Theorem screening_prompts_differ (inst : ModuleInstance) :
  type inst = "screening" ->
  In "Con meds reviewed; changes recorded" (exportPrompts inst)
  /\ ~ In "Con meds reviewed; changes recorded" (previewPrompts inst)
  /\ ~ sameSet (exportPrompts inst) (previewPrompts inst).
Proof.
  intros Ht.
  assert (Hin : In "Con meds reviewed; changes recorded" (exportPrompts inst)).
  { render Ht. apply includes_In. reflexivity. }
  assert (Hout : ~ In "Con meds reviewed; changes recorded" (previewPrompts inst)).
  { render Ht. intros H. apply includes_In in H. vm_compute in H. discriminate H. }
  split; [exact Hin |]. split; [exact Hout |].
  intros S. apply Hout, S, Hin.
Qed.

(** The instance that adding "Screening Visit" creates. *)
Lemma screening_prompts_witness :
  let inst := {| id := "k3x9q2a"; type := "screening"; title := "Screening Visit";
                 repeatCount := None; data := Some [] |} in
  In "Con meds reviewed; changes recorded" (exportPrompts inst)
  /\ ~ In "Con meds reviewed; changes recorded" (previewPrompts inst)
  /\ ~ sameSet (exportPrompts inst) (previewPrompts inst).
Proof.
  intros inst. exact (screening_prompts_differ inst eq_refl).
Defined.

(** The module types without repeats, one by one: the two paths print the
    same set of prompts for labs and for baseline, and different sets for
    the other six. *)
Lemma fixed_types_compared :
  map (fun t =>
         (t, sameSetb
               (exportPrompts {| id := ""; type := t; title := "";
                                 repeatCount := None; data := None |})
               (previewPrompts {| id := ""; type := t; title := "";
                                  repeatCount := None; data := None |})))
      ["labs"; "pk"; "physicalExam"; "neuroExam";
       "consent"; "eligibility"; "screening"; "baseline"]
  = [("labs", true); ("pk", false); ("physicalExam", false);
     ("neuroExam", false); ("consent", false); ("eligibility", false);
     ("screening", false); ("baseline", true)].
Proof. vm_compute. reflexivity. Qed.

Lemma In_indices (n i : Z) : In i (indices n) <-> 0 <= i < n.
Proof.
  unfold indices. rewrite in_map_iff. split.
  - intros [k [<- Hk]]. apply in_seq in Hk. lia.
  - intros H. exists (Z.to_nat i). split; [lia | apply in_seq; lia].
Qed.

Lemma In_fromOneTo (n i : Z) : In i (fromOneTo n) <-> 1 <= i <= n.
Proof.
  unfold fromOneTo. rewrite in_map_iff. split.
  - intros [k [<- Hk]]. apply in_seq in Hk. lia.
  - intros H. exists (Z.to_nat i). split; [lia | apply in_seq; lia].
Qed.

(** The vitals module: the position line has three spaces before "Device"
    in the export and one in the preview, whatever the repeat count. *)
Lemma vitals_prompts_differ (inst : ModuleInstance) :
  type inst = "vitals" ->
  ~ sameSet (exportPrompts inst) (previewPrompts inst).
Proof.
  intros Ht S.
  assert (Hin : In "Position: Sitting ☐  Supine ☐  Standing ☐   Device: ______"
                  (exportPrompts inst)).
  { render Ht. now left. }
  apply S in Hin. revert Hin. render Ht. intros Hin.
  destruct Hin as [Hin | Hin]; [discriminate Hin |].
  apply in_app_or in Hin as [Hin | Hin].
  - apply in_flat_map in Hin as [i [_ Hi]].
    destruct Hi as [Hi | [Hi | [Hi | []]]]; discriminate Hi.
  - destruct Hin as [Hin | []]. discriminate Hin.
Qed.

(** The ECG module with at least one repeat: the preview has the line that
    starts with "Date" on its own, the export has it after "ECG n:". *)
Lemma ecg_prompts_differ (inst : ModuleInstance) :
  type inst = "ecg" -> 1 <= repeatOr1 inst ->
  ~ sameSet (exportPrompts inst) (previewPrompts inst).
Proof.
  intros Ht Hn S.
  assert (Hin : In "Date ____-___-____  Time ____:____  QTc ___ ms  Rhythm ____.  Repeat? Yes ☐  No ☐  N/A ☐"
                  (previewPrompts inst)).
  { render Ht. right. apply in_or_app. left. apply in_flat_map. exists 0.
    split; [apply In_indices; lia | right; now left]. }
  apply S in Hin. revert Hin. render Ht. intros Hin.
  destruct Hin as [Hin | Hin]; [discriminate Hin |].
  apply in_app_or in Hin as [Hin | Hin].
  - apply in_flat_map in Hin as [p [Hp Hi]].
    apply in_map_iff in Hp as [i [<- _]].
    destruct Hi as [Hi | []]. discriminate Hi.
  - destruct Hin as [Hin | []]. discriminate Hin.
Qed.

(** Where the two paths agree: for an instance of one of the ten module
    types (with a repeat count of at least one where it has one), the sets
    of prompts are equal exactly for labs and for baseline. *)
Lemma prompts_agree_iff (inst : ModuleInstance) :
  isModuleType (type inst) = true ->
  1 <= repeatOr1 inst ->
  (sameSet (exportPrompts inst) (previewPrompts inst)
   <-> type inst = "labs" \/ type inst = "baseline").
Proof.
  intros Ht Hn. apply includes_In in Ht.
  unfold ModuleTypes in Ht. cbn [In] in Ht.
  repeat destruct Ht as [Ht | Ht]; try contradiction; symmetry in Ht;
    try (rewrite <- sameSetb_spec; render Ht; eval_sameSetb;
         intuition discriminate).
  - split; [intros S; elim (vitals_prompts_differ inst Ht S)
           | rewrite Ht; intuition discriminate].
  - split; [intros S; elim (ecg_prompts_differ inst Ht Hn S)
           | rewrite Ht; intuition discriminate].
Qed.

(* ------------------------------------------------------------------------ *)
(** ** The module store *)

Local Open Scope list_scope.

Lemma setMods_same (st : State) : setMods st (mods st) = st.
Proof. now destruct st. Qed.

Lemma filter_keeps_all {A : Type} (f : A -> bool) (l : list A) :
  (forall x, In x l -> f x = true) -> filter f l = l.
Proof.
  induction l as [| a l IH]; intros H; simpl; [reflexivity |].
  rewrite (H a (or_introl eq_refl)). f_equal. apply IH.
  intros x Hx. apply H. now right.
Qed.

Lemma map_keeps_all {A : Type} (f : A -> A) (l : list A) :
  (forall x, In x l -> f x = x) -> map f l = l.
Proof.
  induction l as [| a l IH]; intros H; simpl; [reflexivity |].
  rewrite (H a (or_introl eq_refl)). f_equal. apply IH.
  intros x Hx. apply H. now right.
Qed.


Lemma findEntry_Some (t : string) (meta : CatalogEntry) :
  findEntry t = Some meta -> In meta LIBRARY /\ value meta = t.
Proof.
  unfold findEntry. intros H. apply find_some in H as [Hin Heq].
  now apply String.eqb_eq in Heq.
Qed.


(** In the catalog the [repeatable] flag is set on the two types that the
    repeat operation and the renderers test for by name. *)
Lemma repeatable_iff_repeat_type (meta : CatalogEntry) :
  In meta LIBRARY ->
  (repeatable meta = Some true <-> isRepeatType (value meta) = true).
Proof.
  unfold LIBRARY. cbn [In]. intros H.
  repeat (destruct H as [<- | H]; [cbn; intuition discriminate |]).
  contradiction.
Qed.

(** The update that [addModule] queues, by the entry found. *)
Lemma addModule_eq (newId : string) (st : State) :
  addModule newId st
  = match findEntry (toAdd st) with
    | Some meta =>
        Ok (setMods st
              (mods st ++
               [ {| id := newId; type := value meta; title := label meta;
                    repeatCount := initialRepeat meta; data := Some [] |} ]))
    | None => Throws TypeError
    end.
Proof.
  unfold addModule, addModuleUpdater.
  now destruct (findEntry (toAdd st)).
Qed.





(* ------------------------------------------------------------------------ *)
(** ** Removing a module *)

Lemma removeFrom_In (key : string) (m : list ModuleInstance) (x : ModuleInstance) :
  In x (removeFrom key m) <-> In x m /\ id x <> key.
Proof.
  unfold removeFrom. rewrite filter_In, negb_true_iff, String.eqb_neq.
  reflexivity.
Qed.

Lemma removeFrom_absent (key : string) (m : list ModuleInstance) :
  (forall x, In x m -> id x <> key) -> removeFrom key m = m.
Proof.
  intros H. apply filter_keeps_all. intros x Hx.
  apply negb_true_iff, String.eqb_neq. now apply H.
Qed.

Lemma removeFrom_only_one (key : string) (l1 l2 : list ModuleInstance)
      (x : ModuleInstance) :
  id x = key ->
  (forall y, In y (l1 ++ l2) -> id y <> key) ->
  removeFrom key (l1 ++ x :: l2) = l1 ++ l2.
Proof.
  intros Hx Hrest. unfold removeFrom. rewrite filter_app. cbn [filter].
  rewrite Hx, String.eqb_refl. cbn [negb].
  fold (removeFrom key l1). fold (removeFrom key l2).
  rewrite !removeFrom_absent; [reflexivity | |];
    intros y Hy; apply Hrest, in_or_app; auto.
Qed.

Lemma unique_id_split (m : list ModuleInstance) (x : ModuleInstance) :
  NoDup (map id m) -> In x m ->
  exists l1 l2, m = l1 ++ x :: l2
                /\ forall y, In y (l1 ++ l2) -> id y <> id x.
Proof.
  intros N Hx. apply in_split in Hx as [l1 [l2 ->]].
  exists l1, l2. split; [reflexivity |].
  rewrite map_app in N. cbn [map] in N. apply NoDup_remove_2 in N.
  rewrite <- map_app in N.
  intros y Hy E. apply N. rewrite <- E. now apply in_map.
Qed.

Lemma removeFrom_middle (key : string) (l1 l2 : list ModuleInstance)
      (x : ModuleInstance) :
  id x <> key ->
  removeFrom key (l1 ++ x :: l2) = removeFrom key l1 ++ x :: removeFrom key l2.
Proof.
  intros Hx. unfold removeFrom. rewrite filter_app. cbn [filter].
  apply String.eqb_neq in Hx. now rewrite Hx.
Qed.

Lemma removeFrom_count (key : string) (m : list ModuleInstance) :
  (List.length (removeFrom key m)
   + List.length (filter (fun x => String.eqb (id x) key) m))%nat
  = List.length m.
Proof.
  induction m as [| x m IH]; [reflexivity |].
  unfold removeFrom in *. cbn [filter].
  destruct (String.eqb (id x) key); cbn [negb List.length]; lia.
Qed.

(** Two draws of one id, then one removal: both instances go. *)
Lemma removeModule_takes_every_match :
  let v := {| id := "k3x9q2a"; type := "vitals";
              title := "Vitals (°C/°F, HR, BP, etc.)";
              repeatCount := Some 1; data := Some [] |} in
  let st1 := setMods initialState [v] in
  let st2 := setMods initialState [v; v] in
  addModule "k3x9q2a" initialState = Ok st1
  /\ addModule "k3x9q2a" st1 = Ok st2
  /\ List.length (mods st2) = 2%nat
  /\ mods (removeModule "k3x9q2a" st2) = []
  /\ List.length (mods (removeModule "k3x9q2a" st2)) = 0%nat.
Proof. intros v st1 st2. repeat split. Qed.

(** C8, as the code has it.  [removeModule] touches the module list only
    and deletes every instance that has the given id: the instances with
    another id are kept, each between what is kept of the instances before
    it and what is kept of those after it, and the list is shorter by the
    number of instances with that id.  With ids unique in the store,
    removing the id of an instance that is present deletes that one instance
    (the list is one shorter, the instances before and after it follow each
    other unchanged); ids are not unique in every state, since [addModule]
    does not check its draw.  Removing an id that no instance has leaves the
    state, and so the length of the list, as it was. *)
Theorem removeModule_deletes_every_match (key : string) (st : State) :
  fields (removeModule key st) = fields st
  /\ toAdd (removeModule key st) = toAdd st
  /\ msg (removeModule key st) = msg st
  /\ (forall x, In x (mods (removeModule key st)) <-> In x (mods st) /\ id x <> key)
  /\ (forall l1 x l2,
        mods st = l1 ++ x :: l2 -> id x <> key ->
        exists l1' l2',
          mods (removeModule key st) = l1' ++ x :: l2'
          /\ (forall y, In y l1' <-> In y l1 /\ id y <> key)
          /\ (forall y, In y l2' <-> In y l2 /\ id y <> key))
  /\ (List.length (mods (removeModule key st))
       + List.length (filter (fun x => String.eqb (id x) key) (mods st)))%nat
     = List.length (mods st)
  /\ (NoDup (map id (mods st)) ->
      forall x, In x (mods st) -> id x = key ->
      exists l1 l2,
        mods st = l1 ++ x :: l2
        /\ mods (removeModule key st) = l1 ++ l2
        /\ S (List.length (mods (removeModule key st))) = List.length (mods st))
  /\ ((forall x, In x (mods st) -> id x <> key) ->
      removeModule key st = st
      /\ List.length (mods (removeModule key st)) = List.length (mods st)).
Proof.
  repeat (split; [reflexivity |]).
  split; [intros x; apply removeFrom_In |].
  split.
  { intros l1 x l2 E Hx.
    exists (removeFrom key l1), (removeFrom key l2).
    split; [| split; intros y; apply removeFrom_In].
    cbn [removeModule setMods mods]. rewrite E.
    now apply removeFrom_middle. }
  split; [apply removeFrom_count |].
  split.
  - intros N x Hx Hk.
    destruct (unique_id_split (mods st) x N Hx) as [l1 [l2 [E Hrest]]].
    exists l1, l2. split; [exact E |].
    rewrite Hk in Hrest.
    assert (R : mods (removeModule key st) = l1 ++ l2).
    { cbn [removeModule setMods mods]. rewrite E.
      now apply removeFrom_only_one. }
    split; [exact R |].
    rewrite R, E, !length_app. cbn [List.length]. lia.
  - intros H.
    assert (R : removeModule key st = st).
    { unfold removeModule. rewrite (removeFrom_absent key (mods st) H).
      apply setMods_same. }
    now rewrite R.
Qed.

(** A store of three modules: removing the middle one, and removing an id
    that is not there; a store where two instances share the id of the
    first: the third is kept, nothing before it, nothing after it. *)
Lemma removeModule_witness :
  let a := {| id := "a1"; type := "vitals"; title := "Vitals (°C/°F, HR, BP, etc.)";
              repeatCount := Some 1; data := Some [] |} in
  let b := {| id := "b2"; type := "labs"; title := "Labs & Specimen Collection";
              repeatCount := None; data := Some [] |} in
  let c := {| id := "c3"; type := "ecg"; title := "ECG (with Repeat / N/A option)";
              repeatCount := Some 3; data := Some [] |} in
  let st := setMods initialState [a; b; c] in
  let dup := setMods initialState [a; a; b] in
  (exists l1 l2,
     mods st = l1 ++ b :: l2
     /\ mods (removeModule "b2" st) = l1 ++ l2
     /\ S (List.length (mods (removeModule "b2" st))) = List.length (mods st))
  /\ removeModule "zz" st = st
  /\ (exists l1' l2',
        mods (removeModule "a1" dup) = l1' ++ b :: l2'
        /\ (forall y, In y l1' <-> In y [a; a] /\ id y <> "a1")
        /\ (forall y, In y l2' <-> In y [] /\ id y <> "a1")).
Proof.
  intros a b c st dup.
  destruct (removeModule_deletes_every_match "b2" st)
    as [_ [_ [_ [_ [_ [_ [H _]]]]]]].
  destruct (removeModule_deletes_every_match "zz" st)
    as [_ [_ [_ [_ [_ [_ [_ H']]]]]]].
  destruct (removeModule_deletes_every_match "a1" dup)
    as [_ [_ [_ [_ [Hmid _]]]]].
  split; [| split].
  - apply H; [| cbn; tauto | reflexivity].
    cbn. repeat constructor; cbn; intuition discriminate.
  - apply H'. intros x Hx. cbn in Hx.
    destruct Hx as [<- | [<- | [<- | []]]]; discriminate.
  - apply (Hmid [a; a] b []); [reflexivity | discriminate].
Defined.

(* ------------------------------------------------------------------------ *)
(** ** Changing the repeat count *)



Lemma bumpRepeat_keeps (key : string) (delta : Z) (x : ModuleInstance) :
  id (bumpRepeat key delta x) = id x
  /\ type (bumpRepeat key delta x) = type x
  /\ title (bumpRepeat key delta x) = title x
  /\ data (bumpRepeat key delta x) = data x.
Proof.
  unfold bumpRepeat.
  destruct (String.eqb (id x) key && isRepeatType (type x)); repeat split.
Qed.

Lemma bumpRepeat_ok (key : string) (delta : Z) (x : ModuleInstance) :
  repeatOk x -> repeatOk (bumpRepeat key delta x).
Proof.
  intros Hx. unfold bumpRepeat.
  destruct (String.eqb (id x) key && isRepeatType (type x)); [| exact Hx].
  intros _. cbn [repeatCount]. eexists. split; [reflexivity | lia].
Qed.

Lemma step_keeps_repeatOk (h : Host) (st st' : State) (a : Action) :
  (forall x, In x (mods st) -> repeatOk x) ->
  step h st a = Ok st' ->
  forall x, In x (mods st') -> repeatOk x.
Proof.
  intros I Hs. destruct a as [k v | t | newId | k | k d | |]; cbn [step] in Hs;
    try (injection Hs as <-; exact I).
  - rewrite addModule_eq in Hs.
    destruct (findEntry (toAdd st)) as [meta |] eqn:E; [| discriminate Hs].
    injection Hs as <-. cbn [setMods mods]. intros x Hx.
    apply in_app_or in Hx as [Hx | [<- | []]]; [now apply I |].
    destruct (findEntry_Some _ _ E) as [Hin _].
    intros Ht. cbn [type] in Ht.
    apply (repeatable_iff_repeat_type meta Hin) in Ht.
    cbn [repeatCount]. unfold initialRepeat. rewrite Ht.
    exists 1. split; [reflexivity | lia].
  - injection Hs as <-. cbn [removeModule setMods mods]. intros x Hx.
    apply removeFrom_In in Hx as [Hx _]. now apply I.
  - injection Hs as <-. cbn [changeRepeat setMods mods]. intros x Hx.
    apply in_map_iff in Hx as [y [<- Hy]]. apply bumpRepeat_ok. now apply I.
  - injection Hs as <-. intros x Hx. apply I.
    unfold handleDownloadDocx in Hx.
    destruct (getField (fields st) "visitDate") as [vd |]; [| exact Hx].
    destruct (JS.truthy vd); [| exact Hx].
    destruct (validateDmmmyyyy h vd); exact Hx.
Qed.

Lemma reachable_repeatOk (h : Host) (st : State) :
  reachable h st -> forall x, In x (mods st) -> repeatOk x.
Proof.
  induction 1 as [| st a st' _ IH _ Hs].
  - intros x [].
  - exact (step_keeps_repeatOk h st st' a IH Hs).
Qed.



(* ------------------------------------------------------------------------ *)
(** ** Adding with a tag that has no catalog entry *)






(* ======================================================================== *)
(** * Further properties *)

(* ------------------------------------------------------------------------ *)
(** ** What the store keeps *)

Lemma bumpRepeat_wellFormed (key : string) (delta : Z) (x : ModuleInstance) :
  wellFormed x -> wellFormed (bumpRepeat key delta x).
Proof.
  intros [meta [Hin [Ht [Hl [Hr [Hn Hd]]]]]].
  unfold bumpRepeat.
  destruct (String.eqb (id x) key && isRepeatType (type x)) eqn:E;
    [| exists meta; auto 10].
  apply andb_true_iff in E as [_ E].
  exists meta. cbn [type title repeatCount data].
  repeat (split; [assumption |]).
  split; [| split; [| assumption]].
  - intros _. eexists. split; [reflexivity | lia].
  - intros N. rewrite Ht in E.
    apply (repeatable_iff_repeat_type meta Hin) in E. contradiction.
Qed.

Lemma step_keeps_wellFormed (h : Host) (st st' : State) (a : Action) :
  (forall x, In x (mods st) -> wellFormed x) ->
  step h st a = Ok st' ->
  forall x, In x (mods st') -> wellFormed x.
Proof.
  intros I Hs. destruct a as [k v | t | newId | k | k d | |]; cbn [step] in Hs;
    try (injection Hs as <-; exact I).
  - rewrite addModule_eq in Hs.
    destruct (findEntry (toAdd st)) as [meta |] eqn:E; [| discriminate Hs].
    injection Hs as <-. cbn [setMods mods]. intros x Hx.
    apply in_app_or in Hx as [Hx | [<- | []]]; [now apply I |].
    destruct (findEntry_Some _ _ E) as [Hin _].
    exists meta. cbn [type title repeatCount data]. unfold initialRepeat.
    repeat (split; [auto; fail |]).
    split; [intros ->; exists 1; split; [reflexivity | lia] |].
    split; [| reflexivity].
    intros N. destruct (repeatable meta) as [[|] |]; congruence.
  - injection Hs as <-. cbn [removeModule setMods mods]. intros x Hx.
    apply removeFrom_In in Hx as [Hx _]. now apply I.
  - injection Hs as <-. cbn [changeRepeat setMods mods]. intros x Hx.
    apply in_map_iff in Hx as [y [<- Hy]].
    apply bumpRepeat_wellFormed. now apply I.
  - injection Hs as <-. intros x Hx. apply I.
    unfold handleDownloadDocx in Hx.
    destruct (getField (fields st) "visitDate") as [vd |]; [| exact Hx].
    destruct (JS.truthy vd); [| exact Hx].
    destruct (validateDmmmyyyy h vd); exact Hx.
Qed.

(** X1.  In every state the component can reach, each module instance is
    of a catalog type and carries that entry's label as its title; it has a
    repeat count (at least 1) exactly when the entry is repeatable; and its
    data bag is empty. *)
Theorem reachable_store_well_formed (h : Host) (st : State) :
  reachable h st -> forall x, In x (mods st) -> wellFormed x.
Proof.
  induction 1 as [| st a st' _ IH _ Hs].
  - intros x [].
  - exact (step_keeps_wellFormed h st st' a IH Hs).
Qed.

Lemma reachable_store_well_formed_witness :
  wellFormed {| id := "k3x9q2a"; type := "ecg";
                title := "ECG (with Repeat / N/A option)";
                repeatCount := Some 3; data := Some [] |}.
Proof.
  pose (h := isoOnlyHost 0).
  pose (s1 := setToAdd initialState "ecg").
  pose (x1 := {| id := "k3x9q2a"; type := "ecg";
                 title := "ECG (with Repeat / N/A option)";
                 repeatCount := Some 1; data := Some [] |}).
  pose (s2 := setMods s1 [x1]).
  pose (s3 := changeRepeat "k3x9q2a" 2 s2).
  assert (R1 : reachable h s1)
    by exact (reach_step h initialState (SelectType "ecg") s1
                (reach_init h) eq_refl eq_refl).
  assert (R2 : reachable h s2)
    by exact (reach_step h s1 (AddModule "k3x9q2a") s2 R1 eq_refl eq_refl).
  assert (R3 : reachable h s3)
    by exact (reach_step h s2 (ChangeRepeat "k3x9q2a" 2) s3 R2 eq_refl eq_refl).
  apply (reachable_store_well_formed h s3 R3). now left.
Defined.

Lemma removeFrom_app (key : string) (l1 l2 : list ModuleInstance) :
  removeFrom key (l1 ++ l2) = removeFrom key l1 ++ removeFrom key l2.
Proof. apply filter_app. Qed.

Lemma id_absent (key : string) (m : list ModuleInstance) :
  ~ In key (map id m) -> forall x, In x m -> id x <> key.
Proof.
  intros N x Hx E. apply N. rewrite <- E. now apply in_map.
Qed.

Lemma removeFrom_length (key : string) (m : list ModuleInstance) :
  (List.length (removeFrom key m) <= List.length m)%nat.
Proof. apply filter_length_le. Qed.

Lemma removeFrom_shorter (key : string) (m : list ModuleInstance) :
  In key (map id m) ->
  (List.length (removeFrom key m) < List.length m)%nat.
Proof.
  induction m as [| a m IH]; intros H; [contradiction |].
  cbn [removeFrom filter]. fold (removeFrom key m).
  destruct (String.eqb (id a) key) eqn:E; cbn [negb List.length].
  - pose proof (removeFrom_length key m). lia.
  - apply String.eqb_neq in E. destruct H as [H | H]; [contradiction |].
    specialize (IH H). lia.
Qed.

(** X2.  Removing the module that was just added, by the id it was given,
    restores the state exactly, provided that id was not in use.  If the id
    was in use, the removal takes the older instance with it: the list ends
    up shorter than it was before the addition. *)
Theorem add_then_remove (newId : string) (st st' : State) :
  addModule newId st = Ok st' ->
  (~ In newId (map id (mods st)) -> removeModule newId st' = st)
  /\ (In newId (map id (mods st)) ->
      (List.length (mods (removeModule newId st')) < List.length (mods st))%nat).
Proof.
  rewrite addModule_eq.
  destruct (findEntry (toAdd st)) as [meta |]; [| discriminate].
  intros E. injection E as <-.
  unfold removeModule. cbn [setMods mods fields toAdd msg].
  rewrite removeFrom_app. cbn [removeFrom filter id].
  rewrite String.eqb_refl. cbn [negb]. rewrite app_nil_r.
  fold (removeFrom newId (mods st)).
  split.
  - intros N. rewrite (removeFrom_absent newId (mods st) (id_absent _ _ N)).
    now destruct st.
  - apply removeFrom_shorter.
Qed.

Lemma add_then_remove_witness :
  let st := setMods initialState
              [ {| id := "a1"; type := "labs"; title := "Labs & Specimen Collection";
                   repeatCount := None; data := Some [] |} ] in
  (exists st', addModule "b2" st = Ok st' /\ removeModule "b2" st' = st)
  /\ (exists st', addModule "a1" st = Ok st'
                  /\ (List.length (mods (removeModule "a1" st')) < 1)%nat).
Proof.
  intros st. split.
  - eexists. split; [reflexivity |].
    refine (proj1 (add_then_remove "b2" st _ eq_refl) _).
    cbn. intuition discriminate.
  - eexists. split; [reflexivity |].
    refine (proj2 (add_then_remove "a1" st _ eq_refl) _).
    cbn. now left.
Defined.

Lemma bumpRepeat_zero (key : string) (x : ModuleInstance) :
  repeatOk x -> bumpRepeat key 0 x = x.
Proof.
  intros Hx. unfold bumpRepeat.
  destruct (String.eqb (id x) key && isRepeatType (type x)) eqn:E;
    [| reflexivity].
  apply andb_true_iff in E as [_ E]. destruct (Hx E) as [n [Hn Hge]].
  unfold repeatOr1. rewrite Hn.
  replace (Z.max 1 (n + 0)) with n by lia. rewrite <- Hn. now destruct x.
Qed.

Lemma bumpRepeat_twice (key : string) (d1 d2 : Z) (x : ModuleInstance) :
  repeatOk x -> 0 <= d1 ->
  bumpRepeat key d2 (bumpRepeat key d1 x) = bumpRepeat key (d1 + d2) x.
Proof.
  intros Hx Hd. unfold bumpRepeat at 2 3.
  destruct (String.eqb (id x) key && isRepeatType (type x)) eqn:E.
  - unfold bumpRepeat. cbn [id type title data repeatCount]. rewrite E.
    unfold repeatOr1 at 1. cbn [repeatCount].
    apply andb_true_iff in E as [_ E]. destruct (Hx E) as [n [Hn Hge]].
    unfold repeatOr1. rewrite Hn. do 2 f_equal. lia.
  - unfold bumpRepeat. now rewrite E.
Qed.

(** X3.  In a reachable state, increments of one module's repeat count add
    up, also with whatever change follows them; a change by 0 is no change;
    so an increment followed by a decrement gives back the state as it
    was. *)
Theorem repeat_changes_add_up (h : Host) (key : string) (st : State) :
  reachable h st ->
  (forall d1 d2, 0 <= d1 ->
     changeRepeat key d2 (changeRepeat key d1 st) = changeRepeat key (d1 + d2) st)
  /\ changeRepeat key 0 st = st
  /\ changeRepeat key (-1) (changeRepeat key 1 st) = st.
Proof.
  intros R. pose proof (reachable_repeatOk h st R) as I.
  assert (Z0 : changeRepeat key 0 st = st).
  { unfold changeRepeat.
    rewrite (map_keeps_all (bumpRepeat key 0) (mods st));
      [apply setMods_same |].
    intros x Hx. apply bumpRepeat_zero. now apply I. }
  assert (C : forall d1 d2, 0 <= d1 ->
            changeRepeat key d2 (changeRepeat key d1 st)
            = changeRepeat key (d1 + d2) st).
  { intros d1 d2 Hd. unfold changeRepeat, setMods. cbn [mods fields toAdd msg].
    rewrite map_map. f_equal. apply map_ext_in.
    intros x Hx. apply bumpRepeat_twice; [now apply I | exact Hd]. }
  split; [exact C |]. split; [exact Z0 |].
  rewrite (C 1 (-1)) by lia. exact Z0.
Qed.

Lemma repeat_changes_add_up_witness :
  let st := setMods initialState
              [ {| id := "k3x9q2a"; type := "vitals";
                   title := "Vitals (°C/°F, HR, BP, etc.)";
                   repeatCount := Some 1; data := Some [] |} ] in
  changeRepeat "k3x9q2a" (-1) (changeRepeat "k3x9q2a" 1 st) = st.
Proof.
  intros st.
  refine (proj2 (proj2 (repeat_changes_add_up (isoOnlyHost 0) "k3x9q2a" st _))).
  exact (reach_step _ initialState (AddModule "k3x9q2a") st
           (reach_init _) eq_refl eq_refl).
Defined.

Lemma bumpRepeat_id (key : string) (delta : Z) (x : ModuleInstance) :
  id (bumpRepeat key delta x) = id x.
Proof. apply bumpRepeat_keeps. Qed.

Lemma removeFrom_ids (key : string) (m : list ModuleInstance) :
  map id (removeFrom key m) = filter (fun i => negb (String.eqb i key)) (map id m).
Proof.
  induction m as [| a m IH]; [reflexivity |].
  cbn [removeFrom filter map]. fold (removeFrom key m).
  destruct (String.eqb (id a) key); cbn [negb map]; now rewrite IH.
Qed.

(** X4.  What each action does to the list of ids in the store, whatever
    the store holds: [addModule] puts its draw at the end, [removeModule]
    takes out every occurrence of the id it is given and no other id, so
    that id is in the store no more, [changeRepeat] leaves the list of ids
    as it is, and the other actions do not touch the module list.  Hence
    ids that are pairwise distinct stay so under every action, as long as
    each draw of [newId()] is a string not in use. *)
Theorem unique_ids_kept (h : Host) (st st' : State) (a : Action) :
  step h st a = Ok st' ->
  (NoDup (map id (mods st)) ->
   (forall newId, a = AddModule newId -> ~ In newId (map id (mods st))) ->
   NoDup (map id (mods st')))
  /\ (forall newId, a = AddModule newId ->
        map id (mods st') = map id (mods st) ++ [newId])
  /\ (forall k d, a = ChangeRepeat k d -> map id (mods st') = map id (mods st))
  /\ (forall k, a = RemoveModule k ->
        ~ In k (map id (mods st'))
        /\ map id (mods st')
           = filter (fun i => negb (String.eqb i k)) (map id (mods st)))
  /\ ((forall newId, a <> AddModule newId) ->
      (forall k, a <> RemoveModule k) ->
      (forall k d, a <> ChangeRepeat k d) ->
      mods st' = mods st).
Proof.
  intros Hs.
  assert (Hdl : mods (fst (handleDownloadDocx h st)) = mods st).
  { unfold handleDownloadDocx.
    destruct (getField (fields st) "visitDate") as [vd |]; [| reflexivity].
    destruct (JS.truthy vd); [| reflexivity].
    destruct (validateDmmmyyyy h vd); reflexivity. }
  destruct a as [k v | t | newId | k | k d | |]; cbn [step] in Hs.
  - injection Hs as <-. cbn [setFields mods].
    split; [tauto |]. repeat (split; [intros; discriminate |]). reflexivity.
  - injection Hs as <-. cbn [setToAdd mods].
    split; [tauto |]. repeat (split; [intros; discriminate |]). reflexivity.
  - rewrite addModule_eq in Hs.
    destruct (findEntry (toAdd st)) as [meta |]; [| discriminate Hs].
    injection Hs as <-. cbn [setMods mods].
    rewrite map_app. cbn [map id].
    split.
    { intros N F. apply NoDup_app;
        [exact N | repeat constructor; intros [] |].
      intros i Hi [<- | []]. exact (F newId eq_refl Hi). }
    split; [intros n E; now injection E as <- |].
    repeat (split; [intros; discriminate |]).
    intros F _ _. now elim (F newId).
  - injection Hs as <-. cbn [removeModule setMods mods].
    rewrite removeFrom_ids.
    split; [intros N _; now apply NoDup_filter |].
    repeat (split; [intros; discriminate |]).
    split.
    { intros k' E. injection E as <-. split; [| reflexivity].
      intros Hin. apply filter_In in Hin as [_ Hin].
      now rewrite String.eqb_refl in Hin. }
    intros _ F _. now elim (F k).
  - injection Hs as <-. cbn [changeRepeat setMods mods].
    assert (E : map id (map (bumpRepeat k d) (mods st)) = map id (mods st)).
    { rewrite map_map. apply map_ext. intros x. apply bumpRepeat_id. }
    rewrite E.
    split; [tauto |]. split; [intros; discriminate |].
    split; [reflexivity |]. split; [intros; discriminate |].
    intros _ _ F. now elim (F k d).
  - injection Hs as <-. rewrite Hdl.
    split; [tauto |]. repeat (split; [intros; discriminate |]). reflexivity.
  - injection Hs as <-. cbn [setMsg mods].
    split; [tauto |]. repeat (split; [intros; discriminate |]). reflexivity.
Qed.

(** A store of two modules with ids a1 and b2: a third one with the unused
    id c3 keeps the ids distinct; removing a1 leaves b2 only; a change of
    the repeat count of a1 leaves both ids. *)
Lemma unique_ids_kept_witness :
  let h := isoOnlyHost 0 in
  let a := {| id := "a1"; type := "vitals"; title := "Vitals (°C/°F, HR, BP, etc.)";
              repeatCount := Some 1; data := Some [] |} in
  let b := {| id := "b2"; type := "labs"; title := "Labs & Specimen Collection";
              repeatCount := None; data := Some [] |} in
  let st := setMods initialState [a; b] in
  (exists st',
     step h st (AddModule "c3") = Ok st'
     /\ map id (mods st') = ["a1"; "b2"; "c3"]
     /\ NoDup (map id (mods st')))
  /\ map id (mods (removeModule "a1" st)) = ["b2"]
  /\ map id (mods (changeRepeat "a1" 1 st)) = ["a1"; "b2"].
Proof.
  intros h a b st.
  split; [| split].
  - eexists. split; [reflexivity |].
    destruct (unique_ids_kept h st _ (AddModule "c3") eq_refl) as [N [E _]].
    split; [exact (E "c3" eq_refl) |].
    apply N.
    + cbn. repeat constructor; cbn; intuition discriminate.
    + intros newId E' Hin. injection E' as <-. cbn in Hin.
      destruct Hin as [Hin | [Hin | []]]; discriminate Hin.
  - destruct (unique_ids_kept h st _ (RemoveModule "a1") eq_refl)
      as [_ [_ [_ [R _]]]].
    exact (proj2 (R "a1" eq_refl)).
  - destruct (unique_ids_kept h st _ (ChangeRepeat "a1" 1) eq_refl)
      as [_ [_ [C _]]].
    exact (C "a1" 1 eq_refl).
Defined.

Lemma removeFrom_bump (k k' : string) (d : Z) (m : list ModuleInstance) :
  removeFrom k (map (bumpRepeat k' d) m) = map (bumpRepeat k' d) (removeFrom k m).
Proof.
  induction m as [| a m IH]; [reflexivity |].
  cbn [map removeFrom filter]. fold (removeFrom k m).
  fold (removeFrom k (map (bumpRepeat k' d) m)).
  rewrite bumpRepeat_id.
  destruct (String.eqb (id a) k); cbn [negb map]; now rewrite IH.
Qed.

Lemma filter_comm {A : Type} (f g : A -> bool) (l : list A) :
  filter f (filter g l) = filter g (filter f l).
Proof.
  induction l as [| a l IH]; [reflexivity |].
  cbn [filter]. destruct (f a) eqn:Ef, (g a) eqn:Eg; cbn [filter];
    rewrite ?Ef, ?Eg, IH; reflexivity.
Qed.

Lemma filter_twice {A : Type} (f : A -> bool) (l : list A) :
  filter f (filter f l) = filter f l.
Proof.
  apply filter_keeps_all. intros x Hx. now apply filter_In in Hx.
Qed.

(** X5.  The order of store operations does not matter where they do not
    meet: two removals commute, a removal commutes with a change of repeat
    count, and removing the same id a second time changes nothing. *)
Theorem store_operations_commute (k k' : string) (d : Z) (st : State) :
  removeModule k (removeModule k' st) = removeModule k' (removeModule k st)
  /\ removeModule k (changeRepeat k' d st) = changeRepeat k' d (removeModule k st)
  /\ removeModule k (removeModule k st) = removeModule k st.
Proof.
  unfold removeModule, changeRepeat, setMods. cbn [mods fields toAdd msg].
  repeat split; f_equal.
  - apply filter_comm.
  - apply removeFrom_bump.
  - apply filter_twice.
Qed.

(* ------------------------------------------------------------------------ *)
(** ** The exported document *)

Lemma buildDoc_app (h : Host) (l1 l2 : list ModuleInstance) (f : Fields) :
  children (buildDoc h (l1 ++ l2) f)
  = children (buildDoc h l1 f) ++ map Par (flat_map buildModuleDocx l2).
Proof.
  unfold buildDoc. cbn [children].
  now rewrite flat_map_app, map_app, <- !app_assoc.
Qed.

(** X6.  The body of the export follows the store: adding a module leaves
    the document as it was and appends the new module's section, which
    opens with the module's title as heading; with no modules the document
    is the brand heading, the version line, the header table and the
    disclaimer. *)
Theorem export_follows_store (h : Host) (newId : string) (st st' : State) :
  addModule newId st = Ok st' ->
  exists x,
    mods st' = mods st ++ [x]
    /\ children (buildDoc h (mods st') (fields st'))
       = children (buildDoc h (mods st) (fields st)) ++ map Par (buildModuleDocx x)
    /\ hd_error (buildModuleDocx x) = Some (SectionHeading (title x))
    /\ children (buildDoc h [] (fields st))
       = [ Par (Heading1 "Research Source Consulting");
           Par (Para "Source Version: v1.1");
           Table (HeaderTable h (fields st));
           Par (Para (disclaimer BRAND)) ].
Proof.
  rewrite addModule_eq.
  destruct (findEntry (toAdd st)) as [meta |]; [| discriminate].
  intros E. injection E as <-. eexists.
  split; [reflexivity |].
  cbn [setMods mods fields]. rewrite buildDoc_app.
  cbn [flat_map]. rewrite app_nil_r.
  split; [reflexivity |]. split; [apply title_in_both | reflexivity].
Qed.

Lemma export_follows_store_witness :
  children (buildDoc (isoOnlyHost 0)
              [ {| id := "k3x9q2a"; type := "vitals";
                   title := "Vitals (°C/°F, HR, BP, etc.)";
                   repeatCount := Some 1; data := Some [] |} ] [])
  = children (buildDoc (isoOnlyHost 0) [] [])
    ++ map Par (buildModuleDocx
                  {| id := "k3x9q2a"; type := "vitals";
                     title := "Vitals (°C/°F, HR, BP, etc.)";
                     repeatCount := Some 1; data := Some [] |}).
Proof.
  destruct (export_follows_store (isoOnlyHost 0) "k3x9q2a" initialState
              _ eq_refl) as [y [Hm [Hc _]]].
  injection Hm as Hy. rewrite <- Hy in Hc. exact Hc.
Defined.

Lemma flat_map_all_nil {A B : Type} (f : A -> list B) (l : list A) :
  (forall a, f a = []) -> flat_map f l = [].
Proof.
  intros H. induction l as [| a l IH]; [reflexivity |].
  cbn [flat_map]. now rewrite H, IH.
Qed.

Lemma flat_map_twice {A B C : Type} (f : A -> list B) (g : B -> list C)
      (l : list A) :
  flat_map g (flat_map f l) = flat_map (fun a => flat_map g (f a)) l.
Proof.
  induction l as [| a l IH]; [reflexivity |].
  cbn [flat_map]. now rewrite flat_map_app, IH.
Qed.

Lemma flat_map_of_map {A B C : Type} (f : A -> B) (g : B -> list C) (l : list A) :
  flat_map g (map f l) = flat_map (fun a => g (f a)) l.
Proof.
  induction l as [| a l IH]; [reflexivity |].
  cbn [map flat_map]. now rewrite IH.
Qed.

Lemma flat_map_singleton {A B : Type} (f : A -> B) (l : list A) :
  flat_map (fun a => [f a]) l = map f l.
Proof.
  induction l as [| a l IH]; [reflexivity |].
  cbn [map flat_map app]. now rewrite IH.
Qed.

Lemma one_heading_per_module (inst : ModuleInstance) :
  flat_map (fun p => match p with
                     | SectionHeading t => [t]
                     | _ => []
                     end) (buildModuleDocx inst) = [title inst].
Proof.
  unfold buildModuleDocx.
  repeat match goal with
         | |- context [if ?b then _ else _] => destruct b
         end;
    rewrite ?flat_map_app; cbn [flat_map app]; try reflexivity.
  - rewrite flat_map_twice, flat_map_all_nil by reflexivity. reflexivity.
  - rewrite flat_map_of_map, flat_map_all_nil by reflexivity. reflexivity.
Qed.

(** X7.  The exported document has one section heading per module, and the
    headings, in order, are the titles of the modules in the store. *)
Theorem headings_are_titles (h : Host) (m : list ModuleInstance) (f : Fields) :
  sectionHeadings (buildDoc h m f) = map title m.
Proof.
  unfold sectionHeadings, buildDoc. cbn [children].
  rewrite flat_map_app. cbn [flat_map app].
  induction m as [| a m IH]; [reflexivity |].
  cbn [flat_map map]. rewrite map_app, flat_map_app, IH.
  assert (E : forall l,
            flat_map (fun c => match c with
                               | Par (SectionHeading t) => [t]
                               | _ => []
                               end) (map Par l)
            = flat_map (fun p => match p with
                                 | SectionHeading t => [t]
                                 | _ => []
                                 end) l).
  { induction l as [| p l IHl]; [reflexivity |].
    cbn [map flat_map]. now rewrite IHl. }
  now rewrite E, one_heading_per_module.
Qed.

Lemma fromOneTo_indices (n : Z) : fromOneTo n = map (fun i => i + 1) (indices n).
Proof.
  unfold fromOneTo, indices. rewrite <- seq_shift, !map_map.
  apply map_ext. intros k. lia.
Qed.

Lemma length_fromOneTo (n : Z) : List.length (fromOneTo n) = Z.to_nat n.
Proof. unfold fromOneTo. now rewrite length_map, length_seq. Qed.

Lemma length_indices (n : Z) : List.length (indices n) = Z.to_nat n.
Proof. unfold indices. now rewrite length_map, length_seq. Qed.

Lemma length_flat_map_const {A B : Type} (f : A -> list B) (k : nat) (l : list A) :
  (forall a, List.length (f a) = k) ->
  List.length (flat_map f l) = (k * List.length l)%nat.
Proof.
  intros H. induction l as [| a l IH]; cbn [flat_map List.length]; [lia |].
  rewrite length_app, H, IH. lia.
Qed.

(** X8.  A vitals module prints the same prompts in the same order on both
    paths, but for the first line (the position line): one "Reading i"
    block of three lines for each i from 1 to the repeat count, then the
    investigator line.  A repeat count below 1 gives no block. *)
Theorem vitals_blocks_agree (inst : ModuleInstance) :
  type inst = "vitals" ->
  tl (exportPrompts inst) = tl (previewPrompts inst)
  /\ tl (exportPrompts inst)
     = flat_map (fun i =>
         [("Reading " ++ JS.numToString i)%string;
          "Time ____:____  HR ___  BP ___/___  RR ___  Temp ___°C (___°F)  SpO2 ___%";
          "Weight ___ kg  Height ___ cm  BMI ___ kg/m²  (omit if remote)"])
         (fromOneTo (repeatOr1 inst))
       ++ [investigatorLine]
  /\ List.length (exportPrompts inst) = (2 + 3 * Z.to_nat (repeatOr1 inst))%nat
  /\ List.length (previewPrompts inst) = (2 + 3 * Z.to_nat (repeatOr1 inst))%nat.
Proof.
  intros Ht.
  assert (Ee : tl (exportPrompts inst)
               = flat_map (fun i =>
                   [("Reading " ++ JS.numToString i)%string;
                    "Time ____:____  HR ___  BP ___/___  RR ___  Temp ___°C (___°F)  SpO2 ___%";
                    "Weight ___ kg  Height ___ cm  BMI ___ kg/m²  (omit if remote)"])
                   (fromOneTo (repeatOr1 inst))
                 ++ [investigatorLine]).
  { render Ht. cbn [tl]. now rewrite flat_map_twice. }
  assert (Ep : tl (previewPrompts inst)
               = flat_map (fun i =>
                   [("Reading " ++ JS.numToString i)%string;
                    "Time ____:____  HR ___  BP ___/___  RR ___  Temp ___°C (___°F)  SpO2 ___%";
                    "Weight ___ kg  Height ___ cm  BMI ___ kg/m²  (omit if remote)"])
                   (fromOneTo (repeatOr1 inst))
                 ++ [investigatorLine]).
  { render Ht. cbn [tl]. now rewrite fromOneTo_indices, flat_map_of_map. }
  assert (Le : exists a, exportPrompts inst = a :: tl (exportPrompts inst)).
  { render Ht. eexists. reflexivity. }
  assert (Lp : exists a, previewPrompts inst = a :: tl (previewPrompts inst)).
  { render Ht. eexists. reflexivity. }
  split; [now rewrite Ee, Ep |]. split; [exact Ee |].
  destruct Le as [a ->], Lp as [b ->]. cbn [List.length]. rewrite Ee, Ep.
  rewrite !length_app, (length_flat_map_const _ 3) by reflexivity.
  rewrite length_fromOneTo. cbn [List.length]. lia.
Qed.

Lemma vitals_blocks_witness :
  let inst := {| id := "k3x9q2a"; type := "vitals";
                 title := "Vitals (°C/°F, HR, BP, etc.)";
                 repeatCount := Some 2; data := Some [] |} in
  tl (exportPrompts inst) = tl (previewPrompts inst)
  /\ List.length (exportPrompts inst) = 8%nat.
Proof.
  intros inst.
  destruct (vitals_blocks_agree inst eq_refl) as [H1 [_ [H3 _]]].
  split; [exact H1 | exact H3].
Defined.

(** X9.  An ECG module with repeat count n: the export prints one line per
    ECG, "ECG i:  Date ...", and the preview prints the label "ECG i" and
    the "Date ..." line apart; so the export has n + 2 prompts and the
    preview 2n + 2, with the same labels 1..n. *)
Theorem ecg_blocks_counted (inst : ModuleInstance) :
  type inst = "ecg" ->
  exportPrompts inst
  = "12-lead ECG per protocol. Record times & any repeats."
    :: map (fun i =>
         ("ECG " ++ JS.numToString i ++ ":  "
          ++ "Date ____-___-____  Time ____:____  QTc ___ ms  Rhythm ____.  Repeat? Yes ☐  No ☐  N/A ☐")%string)
         (fromOneTo (repeatOr1 inst))
    ++ [investigatorLine]
  /\ previewPrompts inst
     = "12-lead ECG per protocol. Record times & any repeats."
       :: flat_map (fun i =>
            [("ECG " ++ JS.numToString i)%string;
             "Date ____-___-____  Time ____:____  QTc ___ ms  Rhythm ____.  Repeat? Yes ☐  No ☐  N/A ☐"])
            (fromOneTo (repeatOr1 inst))
       ++ [investigatorLine]
  /\ List.length (exportPrompts inst) = (2 + Z.to_nat (repeatOr1 inst))%nat
  /\ List.length (previewPrompts inst) = (2 + 2 * Z.to_nat (repeatOr1 inst))%nat.
Proof.
  intros Ht.
  assert (Ee : exportPrompts inst
               = "12-lead ECG per protocol. Record times & any repeats."
                 :: map (fun i =>
                      ("ECG " ++ JS.numToString i ++ ":  "
                       ++ "Date ____-___-____  Time ____:____  QTc ___ ms  Rhythm ____.  Repeat? Yes ☐  No ☐  N/A ☐")%string)
                      (fromOneTo (repeatOr1 inst))
                 ++ [investigatorLine]).
  { render Ht. rewrite flat_map_of_map. cbn [paragraphText].
    rewrite flat_map_singleton. reflexivity. }
  assert (Ep : previewPrompts inst
               = "12-lead ECG per protocol. Record times & any repeats."
                 :: flat_map (fun i =>
                      [("ECG " ++ JS.numToString i)%string;
                       "Date ____-___-____  Time ____:____  QTc ___ ms  Rhythm ____.  Repeat? Yes ☐  No ☐  N/A ☐"])
                      (fromOneTo (repeatOr1 inst))
                 ++ [investigatorLine]).
  { render Ht. now rewrite fromOneTo_indices, flat_map_of_map. }
  split; [exact Ee |]. split; [exact Ep |].
  rewrite Ee, Ep. cbn [List.length].
  rewrite !length_app, length_map, (length_flat_map_const _ 2) by reflexivity.
  rewrite length_fromOneTo. cbn [List.length]. lia.
Qed.

Lemma ecg_blocks_witness :
  let inst := {| id := "k3x9q2a"; type := "ecg";
                 title := "ECG (with Repeat / N/A option)";
                 repeatCount := Some 3; data := Some [] |} in
  List.length (exportPrompts inst) = 5%nat
  /\ List.length (previewPrompts inst) = 8%nat.
Proof.
  intros inst.
  destruct (ecg_blocks_counted inst eq_refl) as [_ [_ [H3 H4]]].
  split; [exact H3 | exact H4].
Defined.

(* ------------------------------------------------------------------------ *)
(** ** The export as a whole *)

(** X10.  [handleDownloadDocx] never touches the fields, the module list or
    the selector.  It ends in one of two ways: the message is the
    validation message and nothing is downloaded, which happens exactly when
    the visit date is filled in and does not validate; or the message is
    "Downloaded .docx" and the one document downloaded is [buildDoc] of the
    modules and fields as they are, with the message due to clear after
    3000 ms.  A missing or empty visit date is not validated. *)
Theorem export_outcomes (h : Host) (st : State) :
  fields (fst (handleDownloadDocx h st)) = fields st
  /\ mods (fst (handleDownloadDocx h st)) = mods st
  /\ toAdd (fst (handleDownloadDocx h st)) = toAdd st
  /\ ((msg (fst (handleDownloadDocx h st)) = Some dateMessage
       /\ snd (handleDownloadDocx h st) = []
       /\ exists s, getField (fields st) "visitDate" = Some s
                    /\ s <> ""%string /\ toDmmmyyyy h s = ""%string)
      \/ (msg (fst (handleDownloadDocx h st)) = Some "Downloaded .docx"
          /\ snd (handleDownloadDocx h st)
             = [Download (buildDoc h (mods st) (fields st)); ClearMsgAfter 3000]
          /\ (JS.orElse (getField (fields st) "visitDate") "" = ""%string
              \/ exists s, getField (fields st) "visitDate" = Some s
                           /\ toDmmmyyyy h s <> ""%string))).
Proof.
  unfold handleDownloadDocx.
  destruct (getField (fields st) "visitDate") as [s |] eqn:F.
  - destruct (JS.truthy s) eqn:T.
    + destruct (validateDmmmyyyy h s) as [| vmsg] eqn:V;
        cbn [fst snd setMsg fields mods toAdd msg].
      * repeat (split; [reflexivity |]). right.
        repeat (split; [reflexivity |]). right. exists s.
        split; [reflexivity | now apply validate_true_iff].
      * repeat (split; [reflexivity |]). left.
        assert (N : validateDmmmyyyy h s <> VTrue) by (rewrite V; discriminate).
        destruct (validate_not_true h s N) as [E M].
        rewrite V in M. injection M as ->.
        repeat (split; [reflexivity |]). exists s.
        split; [reflexivity |]. split; [now apply truthy_true_iff | exact E].
    + cbn [fst snd setMsg fields mods toAdd msg].
      repeat (split; [reflexivity |]). right.
      repeat (split; [reflexivity |]). left.
      cbn [JS.orElse]. now rewrite T.
  - cbn [fst snd setMsg fields mods toAdd msg].
    repeat (split; [reflexivity |]). right.
    repeat (split; [reflexivity |]). now left.
Qed.

(* ------------------------------------------------------------------------ *)
(** ** Text that the host's [Date] rejects *)

Lemma code_of_char (n : Z) :
  0 <= n < 256 -> JS.code (ascii_of_N (Z.to_N n)) = n.
Proof.
  intros H. unfold JS.code. rewrite N_ascii_embedding by lia. lia.
Qed.

Lemma upperChar_upper (c : ascii) :
  JS.isAlpha c = true -> JS.isUpperAZ (JS.upperChar c) = true.
Proof.
  unfold JS.isAlpha, JS.upperChar. intros H.
  destruct (JS.isLowerAZ c) eqn:L.
  - unfold JS.isLowerAZ in L. apply andb_true_iff in L as [L1 L2].
    apply Z.leb_le in L1, L2.
    unfold JS.isUpperAZ. rewrite code_of_char by lia.
    apply andb_true_iff. split; apply Z.leb_le; lia.
  - now rewrite orb_false_r in H.
Qed.

Lemma matchDmmmyyyy_parts (s dd mon yyyy : string) :
  matchDmmmyyyy s = Some (dd, mon, yyyy) ->
  exists d1 d2 a1 a2 a3 y1 y2 y3 y4,
    dd = String d1 (String d2 EmptyString)
    /\ mon = String a1 (String a2 (String a3 EmptyString))
    /\ yyyy = String y1 (String y2 (String y3 (String y4 EmptyString)))
    /\ forallb JS.isDigit [d1; d2; y1; y2; y3; y4] = true
    /\ forallb JS.isAlpha [a1; a2; a3] = true.
Proof.
  unfold matchDmmmyyyy. intros H.
  destruct (list_ascii_of_string s)
    as [|d1 [|d2 [|h1 [|a1 [|a2 [|a3 [|h2 [|y1 [|y2 [|y3 [|y4 [|]]]]]]]]]]]];
    try discriminate H.
  destruct (forallb JS.isDigit [d1; d2; y1; y2; y3; y4]) eqn:D;
    [| discriminate H].
  destruct (forallb JS.isAlpha [a1; a2; a3]) eqn:A; [| discriminate H].
  destruct (JS.code h1 =? 45); [| discriminate H].
  destruct (JS.code h2 =? 45); [| discriminate H].
  cbn [andb] in H. injection H as <- <- <-.
  exists d1, d2, a1, a2, a3, y1, y2, y3, y4. auto.
Qed.

Lemma matchDmmmyyyy_built (d1 d2 a1 a2 a3 y1 y2 y3 y4 : ascii) :
  forallb JS.isDigit [d1; d2; y1; y2; y3; y4] = true ->
  forallb JS.isAlpha [a1; a2; a3] = true ->
  matchDmmmyyyy
    (String d1 (String d2 (String "-" (String a1 (String a2 (String a3
       (String "-" (String y1 (String y2 (String y3 (String y4 "")))))))))))
  = Some (String d1 (String d2 ""), String a1 (String a2 (String a3 "")),
          String y1 (String y2 (String y3 (String y4 "")))).
Proof.
  intros D A. unfold matchDmmmyyyy. cbn [list_ascii_of_string].
  rewrite D, A. reflexivity.
Qed.

Lemma indexOfFrom_found (l : list string) (x : string) (i : Z) :
  0 <= i -> 0 <= JS.indexOfFrom i l x -> In x l.
Proof.
  revert i. induction l as [| y l IH]; intros i Hi H; cbn [JS.indexOfFrom] in H.
  - lia.
  - destruct (String.eqb y x) eqn:E.
    + left. now apply String.eqb_eq.
    + right. apply (IH (i + 1)); lia.
Qed.

(** X12.  When the host's [Date] does not take the text, the normaliser
    returns either the empty string or a canonical text: the input itself
    with its month in upper case.  So whatever the strict branch lets
    through has the shape the export prints. *)
Theorem rejected_text_blank_or_canonical (h : Host) (s : string) :
  JSDate.newDate h s = None ->
  toDmmmyyyy h s = ""%string
  \/ (canonical (toDmmmyyyy h s) = true
      /\ exists dd mon yyyy,
           matchDmmmyyyy s = Some (dd, mon, yyyy)
           /\ s = (dd ++ "-" ++ mon ++ "-" ++ yyyy)%string
           /\ toDmmmyyyy h s
              = (dd ++ "-" ++ JS.toUpperCase mon ++ "-" ++ yyyy)%string).
Proof.
  intros Hn. unfold toDmmmyyyy. rewrite Hn.
  destruct (matchDmmmyyyy s) as [[[dd mon] yyyy] |] eqn:M; [| now left].
  destruct ((JS.indexOf MONTHS (JS.toUpperCase mon) >=? 0)
            && (JS.Number dd >=? 1) && (JS.Number dd <=? 31)
            && (JS.Number yyyy >=? 1900) && (JS.Number yyyy <=? 2100)) eqn:C;
    [| now left].
  right.
  repeat (apply andb_true_iff in C as [C ?]).
  destruct (matchDmmmyyyy_shape s dd mon yyyy M) as [Hs _].
  destruct (matchDmmmyyyy_parts s dd mon yyyy M)
    as [d1 [d2 [a1 [a2 [a3 [y1 [y2 [y3 [y4 [-> [-> [-> [D A]]]]]]]]]]]]].
  split; [| exists (String d1 (String d2 "")),
                   (String a1 (String a2 (String a3 ""))),
                   (String y1 (String y2 (String y3 (String y4 ""))));
            auto].
  unfold canonical. cbn [JS.toUpperCase String.append].
  rewrite matchDmmmyyyy_built; [| exact D |].
  - apply andb_true_iff. split; [| assumption].
    apply andb_true_iff. split; [| now rewrite <- Z.geb_leb].
    apply andb_true_iff. split; [| assumption].
    apply andb_true_iff. split; [| now rewrite <- Z.geb_leb].
    apply includes_In. apply Z.geb_le in C.
    apply (indexOfFrom_found MONTHS _ 0); [lia | exact C].
  - cbn [forallb] in A |- *.
    repeat (apply andb_true_iff in A as [? A]).
    unfold JS.isAlpha.
    rewrite !upperChar_upper by assumption. reflexivity.
Qed.

Lemma rejected_text_witness :
  canonical (toDmmmyyyy (isoOnlyHost 0) "28-aug-2025") = true
  /\ toDmmmyyyy (isoOnlyHost 0) "28-aug-2025" = "28-AUG-2025"%string.
Proof.
  destruct (rejected_text_blank_or_canonical (isoOnlyHost 0) "28-aug-2025"
              eq_refl) as [E | [C _]].
  - discriminate E.
  - split; [exact C | reflexivity].
Defined.

(* ------------------------------------------------------------------------ *)
(** ** ISO dates *)

Lemma DayFromYear_next (y : Z) :
  Calendar.DayFromYear (y + 1) = Calendar.DayFromYear y + Calendar.DaysInYear y.
Proof.
  unfold Calendar.DayFromYear, Calendar.DaysInYear.
  destruct (y mod 4 =? 0) eqn:E4; cbn [negb];
    [destruct (y mod 100 =? 0) eqn:E100; cbn [negb];
     [destruct (y mod 400 =? 0) eqn:E400; cbn [negb] |] |];
    rewrite ?Z.eqb_eq, ?Z.eqb_neq in *;
    Z.div_mod_to_equations; lia.
Qed.

Lemma DayFromYear_mono (a b : Z) :
  a <= b -> Calendar.DayFromYear a <= Calendar.DayFromYear b.
Proof.
  unfold Calendar.DayFromYear. intros H. Z.div_mod_to_equations. lia.
Qed.

Lemma YearFromTime_of_day (d y : Z) :
  Calendar.DayFromYear y <= d < Calendar.DayFromYear (y + 1) ->
  Calendar.YearFromTime (d * Calendar.msPerDay) = y.
Proof.
  intros H.
  destruct (YearFromTime_spec (d * Calendar.msPerDay)) as [L U].
  set (Y := Calendar.YearFromTime (d * Calendar.msPerDay)) in *.
  unfold Calendar.TimeFromYear, Calendar.msPerDay in L, U.
  assert (L' : Calendar.DayFromYear Y <= d) by lia.
  assert (U' : d < Calendar.DayFromYear (Y + 1)) by lia.
  destruct (Z.lt_trichotomy Y y) as [Lt | [Eq | Gt]]; [| exact Eq |].
  - pose proof (DayFromYear_mono (Y + 1) y ltac:(lia)). lia.
  - pose proof (DayFromYear_mono (y + 1) Y ltac:(lia)). lia.
Qed.

Lemma DaysInYear_cases (y : Z) :
  Calendar.DaysInYear y = 365 \/ Calendar.DaysInYear y = 366.
Proof.
  unfold Calendar.DaysInYear.
  repeat match goal with
         | |- context [if ?b then _ else _] => destruct b
         end; auto.
Qed.

(** The fields of midnight of a legal day are that day's year, month and
    date. *)
Lemma fields_of_MakeDay (y m d : Z) :
  1 <= m <= 12 -> 1 <= d <= Calendar.DaysInMonth y (m - 1) ->
  let t := Calendar.MakeDay y (m - 1) d * Calendar.msPerDay in
  Calendar.YearFromTime t = y
  /\ Calendar.MonthFromTime t = m - 1
  /\ Calendar.DateFromTime t = d.
Proof.
  intros Hm Hd t.
  assert (Hdiv : (m - 1) / 12 = 0) by (Z.div_mod_to_equations; lia).
  assert (Hmod : (m - 1) mod 12 = m - 1) by (Z.div_mod_to_equations; lia).
  remember (if Calendar.DaysInYear y =? 366 then 1 else 0) as leap eqn:El.
  assert (Ht : t = (Calendar.DayFromYear y
                    + (Calendar.monthStart (m - 1) leap + d - 1))
                   * Calendar.msPerDay).
  { subst t. unfold Calendar.MakeDay. rewrite Hdiv, Hmod, Z.add_0_r, <- El.
    f_equal. lia. }
  clearbody t. clear Hdiv Hmod.
  assert (Hdm : Calendar.DaysInMonth y (m - 1)
                = match m - 1 with
                  | 1 => 28 + leap
                  | 3 | 5 | 8 | 10 => 30
                  | _ => 31
                  end).
  { unfold Calendar.DaysInMonth. rewrite El.
    destruct (Calendar.DaysInYear y =? 366); reflexivity. }
  rewrite Hdm in Hd. clear Hdm.
  assert (Hleap : Calendar.DaysInYear y = 365 + leap /\ (leap = 0 \/ leap = 1)).
  { destruct (DaysInYear_cases y) as [E | E]; rewrite E in El |- *;
      cbn in El; subst leap; split; auto. }
  destruct Hleap as [Hy Hl].
  remember (m - 1) as k eqn:Ek.
  assert (Hcase : k = 0 \/ k = 1 \/ k = 2 \/ k = 3 \/ k = 4 \/ k = 5
                  \/ k = 6 \/ k = 7 \/ k = 8 \/ k = 9 \/ k = 10 \/ k = 11) by lia.
  clear Ek Hm El.
  assert (Hw : 0 <= Calendar.monthStart k leap + d - 1 < 365 + leap).
  { clear - Hd Hcase Hl.
    repeat (destruct Hcase as [Hc | Hcase];
            [subst k; unfold Calendar.monthStart; cbv iota in Hd; lia |]).
    subst k; unfold Calendar.monthStart; cbv iota in Hd; lia. }
  assert (HY : Calendar.YearFromTime t = y).
  { rewrite Ht. apply YearFromTime_of_day. rewrite DayFromYear_next. lia. }
  assert (HD : Calendar.Day t
               = Calendar.DayFromYear y + (Calendar.monthStart k leap + d - 1)).
  { rewrite Ht. unfold Calendar.Day, Calendar.msPerDay. now rewrite Z.div_mul. }
  assert (HW : Calendar.DayWithinYear t = Calendar.monthStart k leap + d - 1).
  { unfold Calendar.DayWithinYear. rewrite HD, HY. lia. }
  assert (HL : Calendar.InLeapYear t = leap).
  { unfold Calendar.InLeapYear. rewrite HY, Hy.
    destruct Hl as [-> | ->]; reflexivity. }
  split; [exact HY |].
  unfold Calendar.DateFromTime, Calendar.MonthFromTime. rewrite HW, HL.
  clear - Hd Hcase Hl.
  repeat (destruct Hcase as [Hc | Hcase];
          [subst k; unfold Calendar.monthStart; cbv iota in Hd;
           repeat match goal with
                  | |- context [?a <? ?b] =>
                      destruct (Z.ltb_spec a b); try lia; cbv iota
                  end; split; lia |]).
  subst k; unfold Calendar.monthStart; cbv iota in Hd;
    repeat match goal with
           | |- context [?a <? ?b] =>
               destruct (Z.ltb_spec a b); try lia; cbv iota
           end; split; lia.
Qed.

Lemma digitVal_bounds (c : ascii) :
  JS.isDigit c = true -> 0 <= JS.digitVal c <= 9.
Proof.
  unfold JS.isDigit, JS.digitVal. intros H.
  apply andb_true_iff in H as [H1 H2]. apply Z.leb_le in H1, H2. lia.
Qed.

Lemma isoFields_parse (s : string) (y m d : Z) :
  isoFields s = Some (y, m, d) ->
  JSDate.parseIsoDateOnly s
  = Some (Calendar.MakeDate (Calendar.MakeDay y (m - 1) d) 0)
  /\ 0 <= y <= 9999 /\ 1 <= m <= 12
  /\ 1 <= d <= Calendar.DaysInMonth y (m - 1).
Proof.
  unfold isoFields, JSDate.parseIsoDateOnly. intros H.
  destruct (list_ascii_of_string s)
    as [|y1 [|y2 [|y3 [|y4 [|h1 [|m1 [|m2 [|h2 [|d1 [|d2 [|]]]]]]]]]]];
    try discriminate H.
  destruct (forallb JS.isDigit [y1; y2; y3; y4; m1; m2; d1; d2]) eqn:D;
    [| discriminate H].
  destruct (JS.code h1 =? 45); [| discriminate H].
  destruct (JS.code h2 =? 45); [| discriminate H].
  cbn [andb] in H |- *.
  match type of H with
  | (if ?c then _ else _) = _ => destruct c eqn:C; [| discriminate H]
  end.
  injection H as <- <- <-. split; [reflexivity |].
  apply andb_true_iff in C as [C C4]. apply andb_true_iff in C as [C C3].
  apply andb_true_iff in C as [C1 C2].
  apply Z.leb_le in C1, C2, C3, C4.
  cbn [string_of_list_ascii] in *.
  split; [| lia].
  rewrite forallb_forall in D.
  pose proof (digitVal_bounds y1 (D y1 ltac:(cbn; tauto))).
  pose proof (digitVal_bounds y2 (D y2 ltac:(cbn; tauto))).
  pose proof (digitVal_bounds y3 (D y3 ltac:(cbn; tauto))).
  pose proof (digitVal_bounds y4 (D y4 ltac:(cbn; tauto))).
  cbn [string_of_list_ascii]. unfold JS.Number. cbn [JS.NumberFrom]. lia.
Qed.

Lemma In_range (a b x : Z) : In x (range a b) <-> a <= x <= b.
Proof.
  unfold range. rewrite in_map_iff. split.
  - intros [k [<- Hk]]. apply in_seq in Hk. lia.
  - intros H. exists (Z.to_nat (x - a)). split; [lia | apply in_seq; lia].
Qed.

Lemma printed_dates_canonical :
  forallb (fun y =>
    forallb (fun m =>
      forallb (fun d => canonical (printDate y m d)) (range 1 31))
      (range 1 12))
    (range 1900 2100) = true.
Proof. vm_compute. reflexivity. Qed.

(** X13.  On a host at UTC or east of it (by less than a day), every legal
    date-only ISO text is printed as the day it names: the day in two
    digits, the month's abbreviation, the year in decimal.  For a year from
    1900 to 2100 the result is canonical; below the year 1000 it is not,
    since the year is printed without its leading zeros. *)
Theorem iso_date_printed (h : Host) (s : string) (y m d : Z) :
  (forall t, 0 <= LocalTZA h t < 24 * hour) ->
  isoFields s = Some (y, m, d) ->
  toDmmmyyyy h s = printDate y m d
  /\ (1900 <= y <= 2100 -> canonical (printDate y m d) = true)
  /\ (y < 1000 -> canonical (printDate y m d) = false).
Proof.
  intros Hz Hs.
  destruct (isoFields_parse s y m d Hs) as [Hp [Hy [Hm Hd]]].
  assert (Hd31 : d <= 31).
  { unfold Calendar.DaysInMonth in Hd.
    repeat match goal with
           | H : context [match ?x with _ => _ end] |- _ => destruct x
           | H : context [if ?x then _ else _] |- _ => destruct x
           end; lia. }
  split; [| split].
  - unfold toDmmmyyyy, JSDate.newDate, JSDate.parse. rewrite Hp.
    unfold Calendar.MakeDate. rewrite Z.add_0_r.
    destruct (fields_of_MakeDay y m d Hm Hd) as [FY [FM FD]].
    set (day := Calendar.MakeDay y (m - 1) d) in *.
    assert (Hclip : Calendar.TimeClip (day * Calendar.msPerDay)
                    = Some (day * Calendar.msPerDay)).
    { unfold Calendar.TimeClip.
      assert (B : Z.abs (day * Calendar.msPerDay) <= 8640000000000000).
      { subst day. unfold Calendar.MakeDay, Calendar.DayFromYear,
          Calendar.msPerDay.
        assert (0 <= Calendar.monthStart ((m - 1) mod 12)
                       (if Calendar.DaysInYear (y + (m - 1) / 12) =? 366
                        then 1 else 0) <= 335).
        { assert (M : 0 <= (m - 1) mod 12 < 12) by (apply Z.mod_pos_bound; lia).
          destruct (Calendar.DaysInYear _ =? 366);
            unfold Calendar.monthStart;
            repeat match goal with
                   | |- context [match ?x with _ => _ end] => destruct x
                   end; lia. }
        assert ((m - 1) / 12 = 0) by (Z.div_mod_to_equations; lia).
        Z.div_mod_to_equations. lia. }
      apply Z.leb_le in B. now rewrite B. }
    rewrite Hclip.
    destruct (local_fields_east h day Hz) as [Ey [Em Ed]].
    cbv zeta in Ey, Em, Ed. rewrite Ey, Em, Ed, FY, FM, FD.
    reflexivity.
  - intros Hr. pose proof printed_dates_canonical as A.
    rewrite forallb_forall in A. specialize (A y (proj2 (In_range _ _ _) Hr)).
    rewrite forallb_forall in A.
    specialize (A m (proj2 (In_range _ _ _) Hm)).
    rewrite forallb_forall in A. apply A. apply In_range. lia.
  - intros Hlt. unfold canonical.
    destruct (matchDmmmyyyy (printDate y m d)) as [[[dd mon] yyyy] |] eqn:M;
      [| reflexivity].
    exfalso.
    destruct (matchDmmmyyyy_shape _ _ _ _ M) as [E _].
    destruct (matchDmmmyyyy_parts _ _ _ _ M)
      as [d1 [d2 [a1 [a2 [a3 [y1 [y2 [y3 [y4 [-> [-> [-> _]]]]]]]]]]]].
    assert (L : String.length (printDate y m d) = 11%nat) by now rewrite E.
    clear E M. revert L.
    assert (Y : In y (range 0 999)) by (apply In_range; lia).
    assert (Mo : In m (range 1 12)) by (apply In_range; lia).
    assert (Da : In d (range 1 31)) by (apply In_range; lia).
    assert (A : forallb (fun y =>
                  forallb (fun m =>
                    forallb (fun d =>
                      negb (Nat.eqb (String.length (printDate y m d)) 11))
                      (range 1 31)) (range 1 12)) (range 0 999) = true)
      by (vm_compute; reflexivity).
    rewrite forallb_forall in A. specialize (A y Y).
    rewrite forallb_forall in A. specialize (A m Mo).
    rewrite forallb_forall in A. specialize (A d Da).
    apply negb_true_iff, Nat.eqb_neq in A. exact A.
Qed.

Lemma iso_date_printed_witness :
  toDmmmyyyy (isoOnlyHost (9 * hour)) "2024-02-29" = "29-FEB-2024"%string.
Proof.
  refine (proj1 (iso_date_printed (isoOnlyHost (9 * hour)) "2024-02-29"
                   2024 2 29 _ eq_refl)).
  intros t. unfold hour. cbn. lia.
Defined.

(* ------------------------------------------------------------------------ *)
(** ** The file name of the download *)

Lemma substring_nil (n : nat) : String.substring 0 n "" = ""%string.
Proof. destruct n; reflexivity. Qed.

Lemma allChars_prefix (p : ascii -> bool) (n : nat) (s : string) :
  FileName.allChars p s = true ->
  FileName.allChars p (String.substring 0 n s) = true.
Proof.
  revert s. induction n as [| n IH]; intros s H.
  - destruct s; reflexivity.
  - destruct s as [| c r]; [reflexivity |].
    cbn [String.substring FileName.allChars] in *.
    apply andb_true_iff in H as [Hc Hr]. rewrite Hc. now apply IH.
Qed.

Lemma length_prefix (n : nat) (s : string) :
  (String.length (String.substring 0 n s) <= n)%nat.
Proof.
  revert s. induction n as [| n IH]; intros s.
  - destruct s; cbn; lia.
  - destruct s as [| c r]; cbn [String.substring String.length]; [lia |].
    specialize (IH r). lia.
Qed.

Lemma prefix_of_short (n : nat) (s : string) :
  (String.length s <= n)%nat -> String.substring 0 n s = s.
Proof.
  revert s. induction n as [| n IH]; intros s H.
  - destruct s; [reflexivity | cbn in H; lia].
  - destruct s as [| c r]; [reflexivity |].
    cbn [String.substring]. f_equal. apply IH. cbn in H. lia.
Qed.

Lemma noDouble_prefix (n : nat) (s : string) :
  FileName.noDoubleUnderscore s = true ->
  FileName.noDoubleUnderscore (String.substring 0 n s) = true.
Proof.
  revert s. induction n as [| n IH]; intros s H.
  - destruct s; reflexivity.
  - destruct s as [| a r]; [reflexivity |].
    cbn [String.substring].
    destruct r as [| b r']; [destruct n; reflexivity |].
    cbn [FileName.noDoubleUnderscore] in H.
    apply andb_true_iff in H as [Hab Hr].
    specialize (IH (String b r') Hr).
    destruct n as [| n']; [reflexivity |].
    cbn [String.substring] in IH |- *.
    change (negb ((JS.code a =? 95) && (JS.code b =? 95))
            && FileName.noDoubleUnderscore
                 (String b (String.substring 0 n' r')) = true).
    now rewrite Hab, IH.
Qed.

Lemma underscore_not_alnum (c : ascii) :
  FileName.isAlnum c = true -> (JS.code c =? 95) = false.
Proof.
  unfold FileName.isAlnum, JS.isAlpha, JS.isUpperAZ, JS.isLowerAZ, JS.isDigit.
  intros H. apply Z.eqb_neq. intros E. rewrite E in H. discriminate H.
Qed.

Lemma collapseFrom_chars (b : bool) (s : string) :
  FileName.allChars FileName.isNameChar (FileName.collapseFrom b s) = true.
Proof.
  revert b. induction s as [| c r IH]; intros b; [reflexivity |].
  cbn [FileName.collapseFrom].
  destruct (FileName.isAlnum c) eqn:A.
  - cbn [FileName.allChars]. unfold FileName.isNameChar at 1. now rewrite A, IH.
  - destruct b; [apply IH |].
    cbn [FileName.allChars]. now rewrite IH.
Qed.

(** After a replaced run the result does not go on with an underscore. *)
Lemma collapseFrom_true_head (s : string) :
  match FileName.collapseFrom true s with
  | String c _ => JS.code c =? 95
  | EmptyString => false
  end = false.
Proof.
  induction s as [| c r IH]; [reflexivity |].
  cbn [FileName.collapseFrom].
  destruct (FileName.isAlnum c) eqn:A; [| exact IH].
  now apply underscore_not_alnum.
Qed.

Lemma collapseFrom_noDouble (b : bool) (s : string) :
  FileName.noDoubleUnderscore (FileName.collapseFrom b s) = true.
Proof.
  revert b. induction s as [| c r IH]; intros b; [reflexivity |].
  cbn [FileName.collapseFrom].
  destruct (FileName.isAlnum c) eqn:A.
  - specialize (IH false).
    destruct (FileName.collapseFrom false r) as [| b' r'] eqn:E; [reflexivity |].
    change (negb ((JS.code c =? 95) && (JS.code b' =? 95))
            && FileName.noDoubleUnderscore (String b' r') = true).
    now rewrite (underscore_not_alnum c A), IH.
  - destruct b; [apply IH |].
    specialize (IH true). pose proof (collapseFrom_true_head r) as Hh.
    destruct (FileName.collapseFrom true r) as [| b' r'] eqn:E; [reflexivity |].
    change (negb ((JS.code "_" =? 95) && (JS.code b' =? 95))
            && FileName.noDoubleUnderscore (String b' r') = true).
    now rewrite Hh, IH, andb_false_r.
Qed.

Lemma collapse_alnum (b : bool) (s : string) :
  FileName.allChars FileName.isAlnum s = true ->
  FileName.collapseFrom b s = s.
Proof.
  revert b. induction s as [| c r IH]; intros b H; [reflexivity |].
  cbn [FileName.allChars] in H. apply andb_true_iff in H as [Hc Hr].
  cbn [FileName.collapseFrom]. rewrite Hc. f_equal. now apply IH.
Qed.

Lemma alnum_is_ascii_letter_or_digit (c : ascii) :
  FileName.isAlnum c = true -> 48 <= JS.code c <= 122.
Proof.
  unfold FileName.isAlnum, JS.isAlpha, JS.isUpperAZ, JS.isLowerAZ, JS.isDigit.
  intros H.
  repeat match type of H with
         | (_ || _) = true => apply orb_true_iff in H as [H | H]
         end;
    apply andb_true_iff in H as [H1 H2]; apply Z.leb_le in H1, H2; lia.
Qed.

Lemma trimStart_alnum (c : ascii) (r : string) :
  FileName.isAlnum c = true ->
  FileName.trimStart (String c r) = String c r
  /\ FileName.trimStartRev (String c r) = String c r.
Proof.
  intros H. apply alnum_is_ascii_letter_or_digit in H.
  assert (S1 : JS.isSpace c = false).
  { unfold JS.isSpace. apply orb_false_iff. split.
    - apply andb_false_iff. right. apply Z.leb_gt. lia.
    - apply Z.eqb_neq. lia. }
  assert (N : forall n, 123 <= n -> (JS.code c =? n) = false)
    by (intros n Hn; apply Z.eqb_neq; lia).
  cbn [FileName.trimStart FileName.trimStartRev]. rewrite S1.
  destruct r as [| b r2]; [split; reflexivity |].
  assert (A2 : FileName.isSpace2 c b = false)
    by (unfold FileName.isSpace2; now rewrite N by lia).
  assert (forall x y, FileName.isSpace3 c x y = false) as A3.
  { intros x y. unfold FileName.isSpace3. now rewrite !N by lia. }
  rewrite A2.
  split.
  - destruct r2; [reflexivity | now rewrite A3].
  - (* from the end: the character is the last byte of a sequence *)
    assert (B2 : FileName.isSpace2 b c = false).
    { unfold FileName.isSpace2. rewrite (N 160) by lia. apply andb_false_r. }
    rewrite B2.
    destruct r2 as [| a r3]; [reflexivity |].
    assert (B3 : FileName.isSpace3 a b c = false).
    { unfold FileName.isSpace3. rewrite !N by lia.
      replace (128 <=? JS.code c) with false by (symmetry; apply Z.leb_gt; lia).
      repeat match goal with
             | |- context [?x =? ?y] => destruct (x =? y)
             | |- context [?x <=? ?y] => destruct (x <=? y)
             end; reflexivity. }
    now rewrite B3.
Qed.

Lemma string_app_assoc (a b c : string) :
  ((a ++ b) ++ c = a ++ (b ++ c))%string.
Proof.
  induction a as [| x a IH]; [reflexivity |].
  cbn [String.append]. now rewrite IH.
Qed.

Lemma string_app_nil_r (a : string) : (a ++ "" = a)%string.
Proof.
  induction a as [| x a IH]; [reflexivity |].
  cbn [String.append]. now rewrite IH.
Qed.

Lemma revString_app (acc s : string) :
  JS.revString acc s = (JS.revString "" s ++ acc)%string.
Proof.
  revert acc. induction s as [| c r IH]; intros acc; [reflexivity |].
  cbn [JS.revString]. rewrite IH, (IH (String c "")).
  now rewrite string_app_assoc.
Qed.

Lemma revString_append (a b : string) :
  JS.revString "" (a ++ b)%string
  = (JS.revString "" b ++ JS.revString "" a)%string.
Proof.
  induction a as [| x a IHa].
  - cbn. now rewrite string_app_nil_r.
  - cbn [String.append JS.revString].
    rewrite (revString_app (String x "")), IHa,
      (revString_app (String x "") a).
    now rewrite string_app_assoc.
Qed.

Lemma revString_involutive (s : string) :
  JS.revString "" (JS.revString "" s) = s.
Proof.
  induction s as [| c r IH]; [reflexivity |].
  cbn [JS.revString]. rewrite (revString_app (String c "")).
  rewrite revString_append, IH. reflexivity.
Qed.

Lemma allChars_rev (p : ascii -> bool) (s acc : string) :
  FileName.allChars p s = true -> FileName.allChars p acc = true ->
  FileName.allChars p (JS.revString acc s) = true.
Proof.
  revert acc. induction s as [| c r IH]; intros acc Hs Ha; [exact Ha |].
  cbn [FileName.allChars] in Hs. apply andb_true_iff in Hs as [Hc Hr].
  cbn [JS.revString]. apply IH; [exact Hr |].
  cbn [FileName.allChars]. now rewrite Hc, Ha.
Qed.

Lemma trim_alnum (s : string) :
  FileName.allChars FileName.isAlnum s = true -> FileName.trim s = s.
Proof.
  intros H. unfold FileName.trim.
  assert (T1 : FileName.trimStart s = s).
  { destruct s as [| c r]; [reflexivity |].
    cbn [FileName.allChars] in H. apply andb_true_iff in H as [Hc _].
    apply (trimStart_alnum c r Hc). }
  rewrite T1.
  pose proof (allChars_rev FileName.isAlnum s "" H eq_refl) as Hr.
  destruct (JS.revString "" s) as [| c r] eqn:E.
  - cbn. rewrite <- (revString_involutive s), E. reflexivity.
  - cbn [FileName.allChars] in Hr. apply andb_true_iff in Hr as [Hc _].
    rewrite (proj2 (trimStart_alnum c r Hc)), <- E.
    apply revString_involutive.
Qed.

Lemma collapse_nil_iff (s : string) :
  FileName.collapse s = ""%string <-> s = ""%string.
Proof.
  destruct s as [| c r]; [tauto |].
  unfold FileName.collapse. cbn [FileName.collapseFrom].
  destruct (FileName.isAlnum c); split; discriminate.
Qed.

Lemma prefix_nil_iff (n : nat) (s : string) :
  String.substring 0 (S n) s = ""%string <-> s = ""%string.
Proof.
  destruct s as [| c r]; [tauto |].
  cbn [String.substring]. split; discriminate.
Qed.

Lemma collapse_no_alnum (s : string) :
  FileName.allChars (fun c => negb (FileName.isAlnum c)) s = true ->
  FileName.collapseFrom true s = ""%string.
Proof.
  induction s as [| c r IH]; intros H; [reflexivity |].
  cbn [FileName.allChars] in H. apply andb_true_iff in H as [Hc Hr].
  apply negb_true_iff in Hc.
  cbn [FileName.collapseFrom]. rewrite Hc. now apply IH.
Qed.

(** X14.  The stem of the file name is made of ASCII letters, digits and
    underscores only, is at most 40 characters long and never has two
    underscores in a row, whatever the protocol field holds.  The stem is
    empty exactly when nothing is left of the field after trimming (the
    field is missing, empty or white space only), and only then is the file
    protocol_source.docx; in every other case the file is the stem followed
    by _source.docx.  Text without a letter or digit is not empty: it gives
    the stem "_" and the file __source.docx.  A protocol number of up to 40
    letters and digits is used unchanged. *)
Theorem filename_is_safe (fields : Fields) :
  let text := FileName.trim (JS.orElse (getField fields "protocol") "") in
  let stem := FileName.safe (getField fields "protocol") in
  FileName.allChars FileName.isNameChar stem = true
  /\ (String.length stem <= 40)%nat
  /\ FileName.noDoubleUnderscore stem = true
  /\ (stem = ""%string <-> text = ""%string)
  /\ (text = ""%string -> FileName.filename fields = "protocol_source.docx"%string)
  /\ (text <> ""%string ->
      FileName.filename fields = (stem ++ "_source.docx")%string)
  /\ (text <> ""%string ->
      FileName.allChars (fun c => negb (FileName.isAlnum c)) text = true ->
      stem = "_"%string
      /\ FileName.filename fields = "__source.docx"%string)
  /\ (forall s, getField fields "protocol" = Some s ->
      FileName.allChars FileName.isAlnum s = true ->
      (String.length s <= 40)%nat ->
      s <> ""%string ->
      FileName.filename fields = (s ++ "_source.docx")%string).
Proof.
  intros text stem.
  assert (Hnil : stem = ""%string <-> text = ""%string).
  { subst stem text. unfold FileName.safe.
    now rewrite prefix_nil_iff, collapse_nil_iff. }
  assert (Hname : stem <> ""%string ->
                  FileName.filename fields = (stem ++ "_source.docx")%string).
  { intros N. subst stem. unfold FileName.filename.
    now rewrite (orElse_nonempty _ _ N). }
  split; [apply allChars_prefix, collapseFrom_chars |].
  split; [apply length_prefix |].
  split; [apply noDouble_prefix, collapseFrom_noDouble |].
  split; [exact Hnil |].
  split.
  { intros E. apply Hnil in E. subst stem. unfold FileName.filename.
    now rewrite E. }
  split.
  { intros N. apply Hname. intros E. apply N. now apply Hnil. }
  split.
  { intros N Hp.
    assert (E : stem = "_"%string).
    { subst stem. unfold FileName.safe. fold text.
      destruct text as [| c r]; [now elim N |].
      cbn [FileName.allChars] in Hp. apply andb_true_iff in Hp as [Hc Hr].
      apply negb_true_iff in Hc.
      unfold FileName.collapse. cbn [FileName.collapseFrom]. rewrite Hc.
      now rewrite (collapse_no_alnum r Hr). }
    split; [exact E |].
    rewrite Hname; rewrite E; [reflexivity | discriminate]. }
  intros s Hs Ha Hl Hn. subst stem text.
  unfold FileName.filename, FileName.safe.
  rewrite Hs, (orElse_nonempty s "" Hn).
  rewrite (trim_alnum s Ha). unfold FileName.collapse.
  rewrite (collapse_alnum false s Ha), (prefix_of_short 40 s Hl).
  now rewrite (orElse_nonempty s _ Hn).
Qed.

(** A protocol number, no field, a field of blanks, and a field of
    punctuation. *)
Lemma filename_is_safe_witness :
  FileName.filename [("protocol", "ABC123")] = "ABC123_source.docx"%string
  /\ FileName.filename [] = "protocol_source.docx"%string
  /\ FileName.filename [("protocol", "   ")] = "protocol_source.docx"%string
  /\ FileName.filename [("protocol", "!!!")] = "__source.docx"%string.
Proof.
  split; [| split; [| split]].
  - destruct (filename_is_safe [("protocol", "ABC123")])
      as [_ [_ [_ [_ [_ [_ [_ H]]]]]]].
    apply (H "ABC123" eq_refl eq_refl); [cbn; lia | discriminate].
  - destruct (filename_is_safe []) as [_ [_ [_ [_ [H _]]]]].
    exact (H eq_refl).
  - destruct (filename_is_safe [("protocol", "   ")]) as [_ [_ [_ [_ [H _]]]]].
    exact (H eq_refl).
  - destruct (filename_is_safe [("protocol", "!!!")])
      as [_ [_ [_ [_ [_ [_ [H _]]]]]]].
    apply H; [discriminate | reflexivity].
Defined.

(* ------------------------------------------------------------------------ *)
(** ** The custom-visit variant: module picker and date check *)

Lemma includes_false (l : list string) (s : string) :
  JS.includes l s = false <-> ~ In s l.
Proof.
  rewrite <- includes_In. destruct (JS.includes l s); intuition congruence.
Qed.

(** X15.  Ticking a module's box flips whether the module is selected and
    nothing else: the other modules stay selected or not, in the order they
    had, and a list without repeats stays without repeats.  A newly ticked
    module goes to the end; unticking and ticking again therefore moves it
    to the end, while ticking and unticking a module that was not selected
    gives back the list as it was. *)
Theorem toggleModule_flips_one (k : string) (prev : list string) :
  (In k (CustomVisitApp.toggleModule k prev) <-> ~ In k prev)
  /\ (forall x, x <> k ->
        (In x (CustomVisitApp.toggleModule k prev) <-> In x prev))
  /\ filter (fun x => negb (String.eqb x k)) (CustomVisitApp.toggleModule k prev)
     = filter (fun x => negb (String.eqb x k)) prev
  /\ (NoDup prev -> NoDup (CustomVisitApp.toggleModule k prev))
  /\ (~ In k prev ->
      CustomVisitApp.toggleModule k (CustomVisitApp.toggleModule k prev) = prev)
  /\ (In k prev ->
      CustomVisitApp.toggleModule k (CustomVisitApp.toggleModule k prev)
      = filter (fun x => negb (String.eqb x k)) prev ++ [k]).
Proof.
  unfold CustomVisitApp.toggleModule.
  assert (Fk : ~ In k (filter (fun x => negb (String.eqb x k)) prev)).
  { intros H. apply filter_In in H as [_ H].
    now rewrite String.eqb_refl in H. }
  assert (Fx : forall x, x <> k ->
            (In x (filter (fun y => negb (String.eqb y k)) prev) <-> In x prev)).
  { intros x Hx. rewrite filter_In. split; [tauto |]. intros H.
    split; [exact H |]. apply negb_true_iff, String.eqb_neq. exact Hx. }
  assert (Fa : filter (fun x => negb (String.eqb x k)) (prev ++ [k])
               = filter (fun x => negb (String.eqb x k)) prev).
  { rewrite filter_app. cbn [filter]. rewrite String.eqb_refl. cbn [negb].
    apply app_nil_r. }
  destruct (JS.includes prev k) eqn:I.
  - apply includes_In in I.
    split; [tauto |]. split; [exact Fx |].
    split; [apply filter_twice |].
    split; [intros N; now apply NoDup_filter |].
    split; [tauto |]. intros _.
    apply includes_false in Fk. now rewrite Fk.
  - apply includes_false in I.
    split; [split; [tauto | intros _; apply in_or_app; right; now left] |].
    split.
    { intros x Hx. rewrite in_app_iff. cbn [In]. split; [| tauto].
      intros [H | [H | []]]; [exact H | congruence]. }
    split; [exact Fa |].
    split.
    { intros N. apply NoDup_app; [exact N | repeat constructor; intros [] |].
      intros x Hx [<- | []]. contradiction. }
    split; [| tauto]. intros _.
    assert (I2 : JS.includes (prev ++ [k]) k = true)
      by (apply includes_In, in_or_app; right; now left).
    rewrite I2, Fa. apply filter_keeps_all. intros x Hx.
    apply negb_true_iff, String.eqb_neq. intros ->. contradiction.
Qed.

Lemma toggleModule_witness :
  CustomVisitApp.toggleModule "ecg" (CustomVisitApp.toggleModule "ecg" ["vitals"])
  = ["vitals"]
  /\ CustomVisitApp.toggleModule "vitals"
       (CustomVisitApp.toggleModule "vitals" ["vitals"; "labs"])
     = ["labs"; "vitals"].
Proof.
  split.
  - refine (proj1 (proj2 (proj2 (proj2 (proj2
              (toggleModule_flips_one "ecg" ["vitals"]))))) _).
    cbn. intuition discriminate.
  - refine (proj2 (proj2 (proj2 (proj2 (proj2
              (toggleModule_flips_one "vitals" ["vitals"; "labs"]))))) _).
    cbn. now left.
Defined.

Lemma digit_plain (c : ascii) :
  JS.isDigit c = true -> CustomVisitApp.isPlain c = true.
Proof.
  unfold JS.isDigit, CustomVisitApp.isPlain, JS.isSpace, JS.upperChar,
    JS.isLowerAZ.
  intros H. apply andb_true_iff in H as [H1 H2]. apply Z.leb_le in H1, H2.
  replace (9 <=? JS.code c) with true by (symmetry; apply Z.leb_le; lia).
  replace (JS.code c <=? 13) with false by (symmetry; apply Z.leb_gt; lia).
  replace (JS.code c =? 32) with false by (symmetry; apply Z.eqb_neq; lia).
  replace (97 <=? JS.code c) with false by (symmetry; apply Z.leb_gt; lia).
  replace (JS.code c =? 47) with false by (symmetry; apply Z.eqb_neq; lia).
  replace (JS.code c =? 46) with false by (symmetry; apply Z.eqb_neq; lia).
  cbn [andb orb negb]. now rewrite Ascii.eqb_refl.
Qed.

Lemma isPlain_parts (c : ascii) :
  CustomVisitApp.isPlain c = true ->
  JS.isSpace c = false /\ JS.upperChar c = c
  /\ (JS.code c =? 47) || (JS.code c =? 46) = false.
Proof.
  unfold CustomVisitApp.isPlain. intros H.
  apply andb_true_iff in H as [H H3]. apply andb_true_iff in H as [H1 H2].
  apply negb_true_iff in H1, H3. apply Ascii.eqb_eq in H2. auto.
Qed.

Lemma plain_text_unchanged (s : string) :
  FileName.allChars CustomVisitApp.isPlain s = true ->
  JS.toUpperCase s = s /\ JS.removeSpaces s = s
  /\ JS.slashDotToHyphen s = s /\ JS.dropSpaces s = s.
Proof.
  induction s as [| c r IH]; intros H; [repeat split |].
  cbn [FileName.allChars] in H. apply andb_true_iff in H as [Hc Hr].
  destruct (isPlain_parts c Hc) as [S [U P]].
  destruct (IH Hr) as [I1 [I2 [I3 _]]].
  cbn [JS.toUpperCase JS.removeSpaces JS.slashDotToHyphen JS.dropSpaces].
  now rewrite S, U, P, I1, I2, I3.
Qed.

Lemma plain_text_trim (s : string) :
  FileName.allChars CustomVisitApp.isPlain s = true -> JS.trim s = s.
Proof.
  intros H. unfold JS.trim.
  destruct (plain_text_unchanged s H) as [_ [_ [_ D]]]. rewrite D.
  pose proof (allChars_rev CustomVisitApp.isPlain s "" H eq_refl) as Hr.
  destruct (plain_text_unchanged _ Hr) as [_ [_ [_ D']]]. rewrite D'.
  apply revString_involutive.
Qed.

Lemma allChars_app (p : ascii -> bool) (a b : string) :
  FileName.allChars p (a ++ b)%string
  = FileName.allChars p a && FileName.allChars p b.
Proof.
  induction a as [| c a IH]; [reflexivity |].
  cbn [String.append FileName.allChars]. now rewrite IH, andb_assoc.
Qed.

(** A canonical text goes through [trim], [toUpperCase] and the
    white-space and separator replacements unchanged, and matches the
    upper-case pattern with the same three groups. *)
Lemma canonical_text_plain (s dd mon yyyy : string) :
  matchDmmmyyyy s = Some (dd, mon, yyyy) ->
  JS.includes MONTHS mon = true ->
  JS.trim s = s /\ JS.toUpperCase s = s
  /\ CustomVisit.normalizeDDMMMYYYY s = s
  /\ CustomVisit.matchDD_MMM_YYYY s = Some (dd, mon, yyyy).
Proof.
  intros M I.
  destruct (matchDmmmyyyy_shape s dd mon yyyy M) as [Hs _].
  destruct (matchDmmmyyyy_parts s dd mon yyyy M)
    as [d1 [d2 [a1 [a2 [a3 [y1 [y2 [y3 [y4 [Edd [Emon [Ey [D _]]]]]]]]]]]]].
  assert (Pm : FileName.allChars CustomVisitApp.isPlain mon = true
               /\ forallb JS.isUpperAZ [a1; a2; a3] = true).
  { apply includes_In in I. unfold MONTHS in I. cbn [In] in I.
    repeat (destruct I as [I | I];
            [rewrite <- I in Emon |- *; injection Emon as <- <- <-;
             split; reflexivity |]).
    contradiction. }
  destruct Pm as [Pm Um].
  assert (Dd := D). rewrite forallb_forall in D.
  assert (Ps : FileName.allChars CustomVisitApp.isPlain s = true).
  { rewrite Hs, !allChars_app, Pm. subst dd yyyy.
    cbn [FileName.allChars].
    rewrite (digit_plain d1), (digit_plain d2), (digit_plain y1),
      (digit_plain y2), (digit_plain y3), (digit_plain y4)
      by (apply D; cbn; tauto).
    reflexivity. }
  destruct (plain_text_unchanged s Ps) as [U [R [P _]]].
  split; [now apply plain_text_trim |]. split; [exact U |].
  split; [unfold CustomVisit.normalizeDDMMMYYYY; now rewrite U, R, P |].
  rewrite Hs. subst dd mon yyyy.
  unfold CustomVisit.matchDD_MMM_YYYY.
  cbn [String.append list_ascii_of_string]. rewrite Dd, Um. reflexivity.
Qed.

(** X16.  On a canonical text the validator of the custom-visit variant
    decides by the length of the month alone: it accepts the days up to 30
    for APR, JUN, SEP and NOV, up to 29 for FEB whatever the year (no leap
    years), and up to 31 for the other months; and the visit date passes
    the export's check exactly then. *)
Theorem custom_visit_day_cap (s dd mon yyyy : string) :
  canonical s = true ->
  matchDmmmyyyy s = Some (dd, mon, yyyy) ->
  (CustomVisit.isValidDDMMMYYYY s = true
   <-> JS.Number dd <= CustomVisitApp.dayCap mon)
  /\ CustomVisitApp.dateValid (Some s) = CustomVisit.isValidDDMMMYYYY s.
Proof.
  intros C M. unfold canonical in C. rewrite M in C.
  apply andb_true_iff in C as [C C5]. apply andb_true_iff in C as [C C4].
  apply andb_true_iff in C as [C C3]. apply andb_true_iff in C as [C1 C2].
  apply Z.leb_le in C2, C3, C4, C5.
  destruct (canonical_text_plain s dd mon yyyy M C1) as [T [U [N P]]].
  assert (V : CustomVisit.isValidDDMMMYYYY s = true
              <-> JS.Number dd <= CustomVisitApp.dayCap mon).
  { unfold CustomVisit.isValidDDMMMYYYY. rewrite T, U, P.
    replace (JS.Number yyyy <? 1900) with false by (symmetry; apply Z.ltb_ge; lia).
    replace (JS.Number yyyy >? 2100) with false
      by (symmetry; rewrite Z.gtb_ltb; apply Z.ltb_ge; lia).
    replace (JS.Number dd <? 1) with false by (symmetry; apply Z.ltb_ge; lia).
    replace (JS.Number dd >? 31) with false
      by (symmetry; rewrite Z.gtb_ltb; apply Z.ltb_ge; lia).
    rewrite C1. cbn [orb negb].
    unfold CustomVisitApp.dayCap.
    assert (Hm := C1). apply includes_In in Hm. unfold MONTHS in Hm.
    cbn [In] in Hm. rewrite !Z.gtb_ltb.
    repeat (destruct Hm as [Hm | Hm];
            [rewrite <- Hm;
             repeat match goal with
                    | |- context [JS.includes ?l ?m] =>
                        let v := eval vm_compute in (JS.includes l m) in
                        change (JS.includes l m) with v
                    end;
             eval_tags; cbn [andb];
             repeat match goal with
                    | |- context [?a <? ?b] => destruct (Z.ltb_spec a b)
                    end;
             split; intros;
             first [reflexivity | discriminate | lia | exfalso; lia] |]).
    contradiction. }
  split; [exact V |].
  unfold CustomVisitApp.dateValid.
  assert (Ne : s <> ""%string).
  { intros ->. discriminate M. }
  rewrite (orElse_nonempty s "" Ne), N.
  apply truthy_true_iff in Ne. now rewrite Ne.
Qed.

Lemma custom_visit_day_cap_witness :
  CustomVisit.isValidDDMMMYYYY "29-FEB-2025" = true
  /\ CustomVisit.isValidDDMMMYYYY "31-APR-2025" = false
  /\ CustomVisitApp.dateValid (Some "29-FEB-2025") = true.
Proof.
  destruct (custom_visit_day_cap "29-FEB-2025" "29" "FEB" "2025"
              eq_refl eq_refl) as [V D].
  split; [apply V; vm_compute; discriminate |].
  split; [reflexivity |].
  rewrite D. apply V. vm_compute. discriminate.
Defined.

(* ------------------------------------------------------------------------ *)
(** ** The build check for backup files *)









(* ------------------------------------------------------------------------ *)
(** ** The names the build check looks for *)

Lemma hasPrefix_spec (p s : string) :
  CheckBackups.hasPrefix p s = true <-> exists b, s = (p ++ b)%string.
Proof.
  revert s. induction p as [| a p IH]; intros s.
  - split; [intros _; now exists s | reflexivity].
  - cbn [CheckBackups.hasPrefix String.append]. destruct s as [| c s].
    + split; [discriminate | intros [b E]; discriminate E].
    + rewrite andb_true_iff, Ascii.eqb_eq, IH. split.
      * intros [-> [b ->]]. now exists b.
      * intros [b E]. injection E as -> ->. split; [reflexivity | now exists b].
Qed.

Lemma contains_spec (p s : string) :
  CheckBackups.contains p s = true <-> exists a b, s = (a ++ p ++ b)%string.
Proof.
  induction s as [| c s IH].
  - cbn [CheckBackups.contains]. rewrite orb_false_r, hasPrefix_spec. split.
    + intros [b E]. now exists ""%string, b.
    + intros [a [b E]]. destruct a as [| x a]; [now exists b | discriminate E].
  - cbn [CheckBackups.contains]. rewrite orb_true_iff, IH, hasPrefix_spec. split.
    + intros [[b E] | [a [b E]]].
      * now exists ""%string, b.
      * exists (String c a), b. cbn [String.append]. now rewrite E.
    + intros [a [b E]]. destruct a as [| x a].
      * left. now exists b.
      * right. cbn [String.append] in E. injection E as -> ->. now exists a, b.
Qed.

Lemma hasSuffix_spec (p s : string) :
  CheckBackups.hasSuffix p s = true <-> exists a, s = (a ++ p)%string.
Proof.
  unfold CheckBackups.hasSuffix. rewrite hasPrefix_spec. split.
  - intros [b E]. exists (JS.revString "" b).
    rewrite <- (revString_involutive s), E, revString_append.
    now rewrite revString_involutive.
  - intros [a ->]. exists (JS.revString "" a). apply revString_append.
Qed.

(** The two tests of the build check, on the name with its ASCII letters
    put in upper case, which is how the [i] flag compares them. *)
Lemma backup_name_tests (n : string) :
  CheckBackups.isBackupTsx n = true
  <-> (exists a, JS.toUpperCase n = (a ++ ".TSX")%string)
      /\ (exists a b, JS.toUpperCase n = (a ++ "BACKUP" ++ b)%string).
Proof.
  unfold CheckBackups.isBackupTsx, CheckBackups.endsInTsx,
    CheckBackups.mentionsBackup.
  now rewrite andb_true_iff, hasSuffix_spec, contains_spec.
Qed.

(* ------------------------------------------------------------------------ *)
(** ** The header on both paths *)

Lemma orElse_blank (x : option string) :
  JS.orElse x " "
  = if JS.truthy (JS.orElse x "") then JS.orElse x "" else " "%string.
Proof.
  destruct x as [s |]; [| reflexivity].
  cbn [JS.orElse]. destruct (JS.truthy s) eqn:T; [now rewrite T | reflexivity].
Qed.

(** X19.  The header of the export carries the eight fields of the preview:
    each label of the preview, followed by a space, is a bold label of the
    table, and the run after it holds the value the preview shows, or a
    single space where the preview shows nothing.  Neither has any other
    field. *)
Theorem header_on_both_paths (h : Host) (f : Fields) :
  (forall l v,
     In (l, v) (HeaderPreview h f) ->
     In ((l ++ " ")%string, if JS.truthy v then v else " "%string)
        (headerPairs (HeaderTable h f)))
  /\ List.length (headerPairs (HeaderTable h f)) = 8%nat
  /\ List.length (HeaderPreview h f) = 8%nat.
Proof.
  split; [| split; reflexivity].
  intros l v H. unfold HeaderPreview in H. cbn [In] in H.
  unfold headerPairs, HeaderTable. cbn [flat_map runPairs app In].
  repeat (destruct H as [H | H];
          [injection H as <- <-; cbn [String.append];
           rewrite <- ?orElse_blank; tauto |]).
  contradiction.
Qed.
